(** * GEOMetaX data installer: a shallow embedding of [downloader.py]

    The module downloads reference files over HTTP and stores them under
    the package's [data] directory.  Its three procedures only perform
    input and output, so the embedding threads an explicit world (a file
    system and a chronological event log) through a small state and
    exception monad; the network is an oracle that maps the number of
    requests already issued and the requested URL to what
    [requests.get] does.

    Library code is modelled after the behaviour its documentation
    gives: [pathlib] joins, [os.makedirs], [open], the [Response] object
    of requests, the operations Python applies to decoded JSON and the
    [csv] writer.  The file system is a finite map from paths to files
    and directories, with no symbolic links, permissions or quotas, so
    that opening a file for writing fails exactly when its directory is
    missing or when a directory sits at its path; a [..] component is an
    ordinary name.  Text is kept as its UTF-8 encoding, and what [print]
    writes is kept as a structured message. *)

From stdpp Require Import base numbers list strings gmap fin_maps pretty.
From Stdlib Require Import Strings.Ascii Strings.String Strings.Byte.

Set Default Proof Using "Type".
Set Warnings "-register-all".
Local Open Scope Z_scope.
Local Open Scope string_scope.
Local Open Scope list_scope.

(** ** Paths ([pathlib.Path]) *)

(** An absolute path is the list of its components below the root. *)
Abbreviation path := (list string).

(** Cuts a string at every slash; [cur] is the component being read. *)
Fixpoint split_slash (cur s : string) : list string :=
  match s with
  | EmptyString => [cur]
  | String c s' =>
      if Ascii.eqb c "/"%char then cur :: split_slash "" s'
      else split_slash (cur +:+ String c "") s'
  end.

Definition keep_part (x : string) : bool :=
  negb (String.eqb x "") && negb (String.eqb x ".").

(** The components [pathlib] keeps: empty ones and [.] are dropped. *)
Definition path_parts (s : string) : path :=
  List.filter keep_part (split_slash "" s).

Definition is_absolute (s : string) : bool :=
  match s with
  | String c _ => Ascii.eqb c "/"%char
  | EmptyString => false
  end.

(** [p / s]: an absolute right operand replaces the left one. *)
Definition pjoin (p : path) (s : string) : path :=
  if is_absolute s then path_parts s else p ++ path_parts s.

Declare Scope path_scope.
Delimit Scope path_scope with path.
Notation "p // s" := (pjoin p s) (at level 40, left associativity) : path_scope.
Local Open Scope path_scope.

Definition parent (p : path) : path := removelast p.

(** ** The file system *)

Inductive node :=
  | File (content : list byte)
  | Dir.

(** The root always exists and is a directory. *)
Definition is_dir (fs : gmap path node) (p : path) : bool :=
  match p with
  | [] => true
  | _ =>
      match fs !! p with
      | Some Dir => true
      | _ => false
      end
  end.

Definition path_exists (fs : gmap path node) (p : path) : bool :=
  match p with
  | [] => true
  | _ => bool_decide (is_Some (fs !! p))
  end.

(** Every entry lives in a directory: the invariant of a real file tree. *)
Definition fs_wf (fs : gmap path node) : Prop :=
  map_Forall (λ p _, p ≠ [] ∧ is_dir fs (parent p) = true) fs.

(** ** Exceptions *)

Inductive os_error :=
  | FileNotFoundError
  | FileExistsError
  | IsADirectoryError
  | NotADirectoryError.

Inductive exn :=
  | ConnectionError (reason : string)
  | HTTPError (status : Z)
  | JSONDecodeError
  | KeyError (key : string)
  | TypeError
  | AttributeError
  | OSError (kind : os_error).

(** The subclasses of [requests.exceptions.RequestException]: transport
    failures, the error of [raise_for_status] and the JSON decoding error
    of [Response.json]. *)
Definition is_RequestException (e : exn) : bool :=
  match e with
  | ConnectionError _ | HTTPError _ | JSONDecodeError => true
  | _ => false
  end.

(** ** Python values, as [Response.json] returns them *)

Inductive pyvalue :=
  | PNone
  | PBool (b : bool)
  | PInt (n : Z)
  | PFloat (repr : string)  (* a float, kept as the text Python prints for it *)
  | PStr (s : string)       (* text, kept as its UTF-8 encoding *)
  | PList (items : list pyvalue)
  | PDict (entries : list (string * pyvalue)).  (* insertion order, distinct keys *)

(** ** HTTP *)

Record Response := mkResponse {
  status_code : Z;
  content : list byte;
  json : option pyvalue  (* [None]: the body is not JSON *)
}.

Inductive http_outcome :=
  | NetFail (reason : string)   (* a [RequestException] of [requests.get]:
                                   timeout, DNS failure, connection reset *)
  | Answer (r : Response).      (* the final response, redirects followed *)

(** ** Events and the world *)

Inductive message :=
  | MsgInstalling
  | MsgDownloaded (filename : string) (folder : path)
  | MsgFailed (url : string) (status : Z)
  | MsgErrorDownloading (url : string) (e : exn)
  | MsgSaved (output_csv : path)
  | MsgApiError (e : exn)
  | MsgOtherError (e : exn).

Inductive event :=
  | EvPrint (m : message)
  | EvGet (url : string)
  | EvMakedirs (p : path)
  | EvWrite (p : path) (data : list byte).

Record world := mkWorld {
  fs : gmap path node;
  log : list event  (* oldest first *)
}.

Definition emit (ev : event) (w : world) : world :=
  mkWorld (fs w) (log w ++ [ev]).

(** The URLs requested so far, oldest first. *)
Definition gets (l : list event) : list string :=
  omap (λ ev, match ev with EvGet u => Some u | _ => None end) l.

(** The paths written so far. *)
Definition writes (l : list event) : list path :=
  omap (λ ev, match ev with EvWrite p _ => Some p | _ => None end) l.

(** ** The monad: state and exceptions *)

Inductive outcome (A : Type) :=
  | Normal (a : A)
  | Raised (e : exn).
Arguments Normal {A} a.
Arguments Raised {A} e.

Definition M (A : Type) : Type := world → world * outcome A.

Definition ret {A} (a : A) : M A := λ w, (w, Normal a).

Definition raise {A} (e : exn) : M A := λ w, (w, Raised e).

Definition bind {A B} (m : M A) (k : A → M B) : M B :=
  λ w, match m w with
       | (w', Normal a) => k a w'
       | (w', Raised e) => (w', Raised e)
       end.

(** [try: m except e: h e]; what [m] did before raising stays done. *)
Definition try_except {A} (m : M A) (h : exn → M A) : M A :=
  λ w, match m w with
       | (w', Normal a) => (w', Normal a)
       | (w', Raised e) => h e w'
       end.

Declare Scope py_scope.
Delimit Scope py_scope with py.
Notation "x <- m ;; k" := (bind m (λ x, k))
  (at level 100, m at next level, right associativity) : py_scope.
Notation "m ;; k" := (bind m (λ _, k))
  (at level 100, right associativity) : py_scope.
Local Open Scope py_scope.

(** [for x in l: body x] *)
Fixpoint for_each {A} (l : list A) (body : A → M unit) : M unit :=
  match l with
  | [] => ret tt
  | x :: l' => body x ;; for_each l' body
  end.

(** A loop that appends to a list as it goes. *)
Fixpoint for_append {A R} (l : list A) (body : A → M R) (acc : list R)
    : M (list R) :=
  match l with
  | [] => ret acc
  | x :: l' => r <- body x ;; for_append l' body (acc ++ [r])
  end.

Definition print (m : message) : M unit :=
  λ w, (emit (EvPrint m) w, Normal tt).

(** ** Operating-system primitives ([os], [open]) *)

(** [os.mkdir]: the directory must be new and its parent a directory. *)
Definition mkdir (m : gmap path node) (p : path)
    : gmap path node * option os_error :=
  if path_exists m p then (m, Some FileExistsError)
  else if is_dir m (parent p) then (<[p := Dir]> m, None)
  else if path_exists m (parent p) then (m, Some NotADirectoryError)
  else (m, Some FileNotFoundError).

(** [os.makedirs(name, exist_ok=True)] of the Python standard library, by
    recursion on the reversed path [tail :: rhead]: a missing [head] is
    created first (a [FileExistsError] there is ignored), then [name]
    itself, where an error is ignored when [name] is a directory. *)
Fixpoint makedirs_rev (rp : list string) (m : gmap path node)
    : gmap path node * option os_error :=
  match rp with
  | [] => (m, None)
  | tail :: rhead =>
      let name := rev rhead ++ [tail] in
      let heads :=
        if negb (path_exists m (rev rhead)) then
          match makedirs_rev rhead m with
          | (m1, Some FileExistsError) => (m1, None)
          | r => r
          end
        else (m, None) in
      match heads with
      | (m1, Some e) => (m1, Some e)
      | (m1, None) =>
          match mkdir m1 name with
          | (m2, Some e) =>
              if is_dir m2 name then (m2, None) else (m2, Some e)
          | (m2, None) => (m2, None)
          end
      end
  end.

Definition makedirs (p : path) : M unit :=
  λ w, let l := log w ++ [EvMakedirs p] in
       match makedirs_rev (rev p) (fs w) with
       | (m, None) => (mkWorld m l, Normal tt)
       | (m, Some e) => (mkWorld m l, Raised (OSError e))
       end.

(** Why [open(p, "w")] or [open(p, "wb")] fails, if it does. *)
Definition open_error (m : gmap path node) (p : path) : option os_error :=
  if is_dir m p then Some IsADirectoryError
  else if is_dir m (parent p) then None
  else if path_exists m (parent p) then Some NotADirectoryError
  else Some FileNotFoundError.

(** [with open(p, mode) as file: file.write(data)]: the file is created
    or truncated, then holds [data]. *)
Definition write_file (p : path) (data : list byte) : M unit :=
  λ w, match open_error (fs w) p with
       | Some e => (w, Raised (OSError e))
       | None =>
           (mkWorld (<[p := File data]> (fs w)) (log w ++ [EvWrite p data]),
            Normal tt)
       end.

(** ** Python built-ins on JSON values *)

Fixpoint dict_lookup (key : string) (entries : list (string * pyvalue))
    : option pyvalue :=
  match entries with
  | [] => None
  | (k, v) :: rest => if String.eqb k key then Some v else dict_lookup key rest
  end.

(** [d.get(key, default)]: only a dict has the method. *)
Definition dict_get (d : pyvalue) (key : string) (default : pyvalue)
    : M pyvalue :=
  match d with
  | PDict entries =>
      match dict_lookup key entries with
      | Some v => ret v
      | None => ret default
      end
  | _ => raise AttributeError
  end.

(** [v[key]] with a string key: a dict raises [KeyError] on a missing
    key; nothing else accepts a string subscript. *)
Definition subscript (v : pyvalue) (key : string) : M pyvalue :=
  match v with
  | PDict entries =>
      match dict_lookup key entries with
      | Some x => ret x
      | None => raise (KeyError key)
      end
  | _ => raise TypeError
  end.

(** A continuation byte of a UTF-8 sequence. *)
Definition is_continuation (c : ascii) : bool :=
  let n := nat_of_ascii c in (128 <=? n)%nat && (n <? 192)%nat.

Definition starts_with_continuation (s : string) : bool :=
  match s with
  | String c _ => is_continuation c
  | EmptyString => false
  end.

(** The characters of a string, each as a one-character string. *)
Fixpoint py_chars (s : string) : list string :=
  match s with
  | EmptyString => []
  | String c s' =>
      if starts_with_continuation s' then
        match py_chars s' with
        | h :: t => String c h :: t
        | [] => [String c ""]
        end
      else String c "" :: py_chars s'
  end.

(** What [for x in v] and [str.join(v)] iterate over: the items of a
    list, the keys of a dict, the characters of a string. *)
Definition py_iter (v : pyvalue) : M (list pyvalue) :=
  match v with
  | PList items => ret items
  | PDict entries => ret (map (λ kv, PStr kv.1) entries)
  | PStr s => ret (map PStr (py_chars s))
  | _ => raise TypeError
  end.

(** Truth value, as [if v] tests it. *)
Definition truthy (v : pyvalue) : bool :=
  match v with
  | PNone => false
  | PBool b => b
  | PInt n => negb (Z.eqb n 0)
  | PFloat r => negb (String.eqb r "0.0" || String.eqb r "-0.0")
  | PStr s => negb (String.eqb s "")
  | PList items => match items with [] => false | _ => true end
  | PDict entries => match entries with [] => false | _ => true end
  end.

(** The items of [sep.join] must all be strings. *)
Fixpoint all_strings (items : list pyvalue) : option (list string) :=
  match items with
  | [] => Some []
  | PStr s :: rest =>
      match all_strings rest with
      | Some l => Some (s :: l)
      | None => None
      end
  | _ :: _ => None
  end.

Fixpoint join_strings (sep : string) (l : list string) : string :=
  match l with
  | [] => ""
  | [s] => s
  | s :: rest => s +:+ sep +:+ join_strings sep rest
  end.

(** [sep.join(v)] *)
Definition str_join (sep : string) (v : pyvalue) : M string :=
  items <- py_iter v ;;
  match all_strings items with
  | Some l => ret (join_strings sep l)
  | None => raise TypeError
  end.

(** ** The [csv] writer (excel dialect, minimal quoting) *)

Definition dquote : ascii := "034"%char.
Definition CR : ascii := "013"%char.
Definition LF : ascii := "010"%char.
Definition CRLF : string := String CR (String LF "").

Definition is_special (c : ascii) : bool :=
  Ascii.eqb c ","%char || Ascii.eqb c dquote || Ascii.eqb c CR || Ascii.eqb c LF.

Fixpoint needs_quotes (s : string) : bool :=
  match s with
  | EmptyString => false
  | String c s' => is_special c || needs_quotes s'
  end.

Fixpoint double_quotes (s : string) : string :=
  match s with
  | EmptyString => ""
  | String c s' =>
      if Ascii.eqb c dquote then String dquote (String dquote (double_quotes s'))
      else String c (double_quotes s')
  end.

Definition csv_field (s : string) : string :=
  if needs_quotes s then String dquote (double_quotes s +:+ String dquote "")
  else s.

(** One record: the fields, comma separated, then the line terminator;
    a lone empty field is written quoted. *)
Definition csv_line (fields : list string) : string :=
  match fields with
  | [EmptyString] => String dquote (String dquote CRLF)
  | _ => join_strings "," (map csv_field fields) +:+ CRLF
  end.

Definition csv_text (records : list (list string)) : string :=
  String.concat "" (map csv_line records).

(** ** The program *)

Section Downloader.

(** What [requests.get] does, given how many requests were issued
    before and the URL. *)
Variable net : nat → string → http_outcome.

(** The text Python prints for a list or a dict. *)
Variable container_repr : pyvalue → string.

(** The directory that holds the module, [Path(__file__).parent]. *)
Variable module_dir : path.

(** [requests.get(url)] *)
Definition requests_get (url : string) : M Response :=
  λ w, let w' := emit (EvGet url) w in
       match net (List.length (gets (log w))) url with
       | NetFail reason => (w', Raised (ConnectionError reason))
       | Answer r => (w', Normal r)
       end.

(** [Response.raise_for_status] of the requests library: client and
    server errors raise, every other status passes. *)
Definition is_error_status (s : Z) : bool :=
  (400 <=? s)%Z && (s <? 600)%Z.

Definition raise_for_status (r : Response) : M unit :=
  if is_error_status (status_code r) then raise (HTTPError (status_code r))
  else ret tt.

(** [Response.json] *)
Definition response_json (r : Response) : M pyvalue :=
  match json r with
  | Some v => ret v
  | None => raise JSONDecodeError
  end.

(** [str(v)], as an f-string formats a value. *)
Definition py_str (v : pyvalue) : string :=
  match v with
  | PStr s => s
  | PNone => "None"
  | PBool true => "True"
  | PBool false => "False"
  | PInt n => pretty n
  | PFloat r => r
  | PList _ | PDict _ => container_repr v
  end.

(** How the csv writer turns a value into a field. *)
Definition csv_cell (v : pyvalue) : string :=
  match v with
  | PNone => ""
  | _ => py_str v
  end.

Definition get_data_dir : path := module_dir // "data".

Definition download_file (url : string) (folder : path) (filename : string)
    : M unit :=
  let file_path := folder // filename in
  try_except
    (response <- requests_get url ;;
     if Z.eqb (status_code response) 200 then
       write_file file_path (content response) ;;
       print (MsgDownloaded filename folder)
     else
       print (MsgFailed url (status_code response)))
    (λ e, if is_RequestException e then print (MsgErrorDownloading url e)
          else raise e).

Definition base_url : string := "https://maayanlab.cloud/Harmonizome".

Definition chromatin_remodelers_url : string :=
  base_url +:+
  "/api/1.0/gene_set/chromatin+remodeling/GO+Biological+Process+Annotations+2023".

(** An entry of [chromatin_data]. *)
Record row := mkRow {
  chromatin_remodeler : pyvalue;
  synonyms : string
}.

(** The body of the loop over the associations. *)
Definition fetch_gene (association : pyvalue) : M row :=
  gene <- subscript association "gene" ;;
  gene_symbol <- subscript gene "symbol" ;;
  gene' <- subscript association "gene" ;;
  href <- subscript gene' "href" ;;
  let gene_url := base_url +:+ py_str href in
  gene_response <- requests_get gene_url ;;
  raise_for_status gene_response ;;
  gene_data <- response_json gene_response ;;
  synonyms <- dict_get gene_data "synonyms" (PList []) ;;
  joined <- (if truthy synonyms then str_join ", " synonyms else ret "") ;;
  ret (mkRow gene_symbol joined).

(** The requests: everything the [try] block does before it opens the
    output file. *)
Definition collect_chromatin_data : M (list row) :=
  response <- requests_get chromatin_remodelers_url ;;
  raise_for_status response ;;
  data <- response_json response ;;
  associations <- dict_get data "associations" (PList []) ;;
  items <- py_iter associations ;;
  for_append items fetch_gene [].

Definition fieldnames : list string := ["chromatin_remodeler"; "synonyms"].

Definition row_fields (r : row) : list string :=
  [csv_cell (chromatin_remodeler r); synonyms r].

(** [writeheader] then [writerows], in a file opened as UTF-8 text
    with no newline translation. *)
Definition csv_bytes (chromatin_data : list row) : list byte :=
  list_byte_of_string (csv_text (fieldnames :: map row_fields chromatin_data)).

Definition fetch_chromatin_remodelers_and_synonyms (output_csv : path)
    : M unit :=
  try_except
    (chromatin_data <- collect_chromatin_data ;;
     write_file output_csv (csv_bytes chromatin_data) ;;
     print (MsgSaved output_csv))
    (λ e, if is_RequestException e then print (MsgApiError e)
          else print (MsgOtherError e)).

Definition factor_urls : list string :=
  ["https://ftp.ncbi.nih.gov/gene/DATA/gene_info.gz";
   "https://guolab.wchscu.cn/AnimalTFDB4_static/download/TF_list_final/Homo_sapiens_TF"].

Definition factor_filenames : list string :=
  ["gene_info.gz"; "Homo_sapiens_TF.csv"].

Definition ontology_urls : list string :=
  ["https://ftp.expasy.org/databases/cellosaurus/cellosaurus.txt";
   "https://github.com/EBISPOT/efo/releases/download/current/efo.owl";
   "http://purl.obolibrary.org/obo/uberon/uberon-full.json"].

Definition ontology_filenames : list string :=
  ["cellosaurus.txt"; "efo.owl"; "uberon-full.json"].

(** The four [os.makedirs(..., exist_ok=True)] calls. *)
Definition create_directories (data_dir : path) : M unit :=
  makedirs (data_dir // "unparsed_factor_data") ;;
  makedirs (data_dir // "unparsed_ontology_data") ;;
  makedirs (data_dir // "parsed_factor_data") ;;
  makedirs (data_dir // "parsed_ontology_data").

Definition install_data : M unit :=
  print MsgInstalling ;;
  let data_dir := get_data_dir in
  create_directories data_dir ;;
  for_each (zip factor_urls factor_filenames)
    (λ '(url, filename),
       download_file url (data_dir // "unparsed_factor_data") filename) ;;
  fetch_chromatin_remodelers_and_synonyms
    (data_dir // "parsed_factor_data/chromatin_remodelers.csv") ;;
  for_each (zip ontology_urls ontology_filenames)
    (λ '(url, filename),
       download_file url (data_dir // "unparsed_ontology_data") filename).

End Downloader.

(** * Properties *)

(** The number of requests issued before the world [w]. *)
Definition requests_before (w : world) : nat := List.length (gets (log w)).

(** A download that does not obtain the file: the request itself fails
    or the status is not 200. *)
Definition download_fails (o : http_outcome) : Prop :=
  match o with
  | NetFail _ => True
  | Answer r => status_code r ≠ 200
  end.

(** What makes a request of the synonym fetch raise: a transport failure
    or a status that [raise_for_status] rejects. *)
Definition request_error (o : http_outcome) : option exn :=
  match o with
  | NetFail reason => Some (ConnectionError reason)
  | Answer r =>
      if is_error_status (status_code r) then Some (HTTPError (status_code r))
      else None
  end.

(** What directory creation along [p] may do to a file system: add
    directories at prefixes of [p], and nothing else. *)
Definition grows (p : path) (m m' : gmap path node) : Prop :=
  (fs_wf m → fs_wf m') ∧
  ∀ q, m' !! q = m !! q ∨ (m !! q = None ∧ m' !! q = Some Dir ∧ q `prefix_of` p).

(** What writing files may do to a file system: the directories stay
    exactly the same. *)
Definition file_step (m m' : gmap path node) : Prop :=
  (fs_wf m → fs_wf m') ∧ ∀ q, is_dir m' q = is_dir m q.

(** What an [except] clause of the synonym fetch prints for [e]. *)
Definition error_report (e : exn) : message :=
  if is_RequestException e then MsgApiError e else MsgOtherError e.

(** The shape of the API, as the fetch reads it: an association names a
    gene by symbol and by the path of its detail page; the detail page
    lists the synonyms. *)
Record gene_info := mkGene {
  gi_symbol : string;
  gi_href : string;
  gi_synonyms : list string
}.

Definition association_of (a : pyvalue) (g : gene_info) : Prop :=
  ∃ entries gene,
    a = PDict entries ∧
    dict_lookup "gene" entries = Some (PDict gene) ∧
    dict_lookup "symbol" gene = Some (PStr (gi_symbol g)) ∧
    dict_lookup "href" gene = Some (PStr (gi_href g)).

Definition detail_of (r : Response) (g : gene_info) : Prop :=
  is_error_status (status_code r) = false ∧
  ∃ entries,
    json r = Some (PDict entries) ∧
    (dict_lookup "synonyms" entries = Some (PList (map PStr (gi_synonyms g))) ∨
     dict_lookup "synonyms" entries = None ∧ gi_synonyms g = []).

(** The record the specification expects for a gene: the symbol, then
    the synonyms joined by a comma and a space, empty when there are
    none. *)
Definition expected_record (g : gene_info) : list string :=
  [gi_symbol g;
   match gi_synonyms g with
   | [] => ""
   | l => join_strings ", " l
   end].


(** The detail URL of a gene and the entry the loop builds for it. *)
Definition gene_url (g : gene_info) : string := base_url +:+ gi_href g.

Definition row_of (g : gene_info) : row :=
  mkRow (PStr (gi_symbol g))
    (match gi_synonyms g with
     | [] => ""
     | l => join_strings ", " l
     end).

(** The directories and files of the installer, below the module's
    directory [md]. *)
Definition unparsed_factor_data (md : path) : path :=
  get_data_dir md // "unparsed_factor_data".

Definition unparsed_ontology_data (md : path) : path :=
  get_data_dir md // "unparsed_ontology_data".

Definition parsed_factor_data (md : path) : path :=
  get_data_dir md // "parsed_factor_data".

Definition parsed_ontology_data (md : path) : path :=
  get_data_dir md // "parsed_ontology_data".

Definition data_dirs (md : path) : list path :=
  [unparsed_factor_data md; unparsed_ontology_data md;
   parsed_factor_data md; parsed_ontology_data md].

Definition chromatin_remodelers_csv (md : path) : path :=
  get_data_dir md // "parsed_factor_data/chromatin_remodelers.csv".

Definition download_destinations (md : path) : list path :=
  map (pjoin (unparsed_factor_data md)) factor_filenames ++
  map (pjoin (unparsed_ontology_data md)) ontology_filenames.

(** The world once the requests to [urls] have also been issued. *)
Definition after_requests (w : world) (urls : list string) : world :=
  mkWorld (fs w) (log w ++ map EvGet urls).

(** The gene set answers the next request with the associations
    [items ++ rest], and the detail pages of the genes of [items] are
    served in turn. *)
Definition served (net : nat → string → http_outcome) (w : world)
    (items : list pyvalue) (genes : list gene_info) (rest : list pyvalue)
    : Prop :=
  ∃ r entries,
    net (requests_before w) chromatin_remodelers_url = Answer r ∧
    is_error_status (status_code r) = false ∧
    json r = Some (PDict entries) ∧
    dict_lookup "associations" entries = Some (PList (items ++ rest)) ∧
    Forall2 association_of items genes ∧
    ∀ i g, genes !! i = Some g →
      ∃ r', net (requests_before w + 1 + i)%nat (gene_url g) = Answer r' ∧
            detail_of r' g.

(** An association that lacks one of the keys the loop reads, in the
    order it reads them. *)
Definition missing_key (a : pyvalue) (key : string) : Prop :=
  ∃ entries,
    a = PDict entries ∧
    (dict_lookup "gene" entries = None ∧ key = "gene" ∨
     ∃ gene,
       dict_lookup "gene" entries = Some (PDict gene) ∧
       (dict_lookup "symbol" gene = None ∧ key = "symbol" ∨
        is_Some (dict_lookup "symbol" gene) ∧
        dict_lookup "href" gene = None ∧ key = "href")).

(** The files the installer may write below the module's directory. *)
Definition installer_files (md : path) : list path :=
  download_destinations md ++ [chromatin_remodelers_csv md].

(** What a run of the installer may do to one path [q]: leave it alone,
    create it as a directory on the way to a data directory, or write
    one of its own files there. *)
Definition touched (md : path) (m m' : gmap path node) (q : path) : Prop :=
  m' !! q = m !! q ∨
  (m !! q = None ∧ m' !! q = Some Dir ∧
   ∃ d, d ∈ data_dirs md ∧ q `prefix_of` d) ∨
  (q ∈ installer_files md ∧ ∃ data, m' !! q = Some (File data)).

(** Reading a field back from the head of a text, the way a CSV reader
    undoes the writer's quoting: a field that opens with a quote runs to
    the first quote that is not doubled, any other field runs to the
    first special character.  The result is the field and the text
    behind it. *)
Fixpoint read_raw (s : string) : string * string :=
  match s with
  | EmptyString => ("", "")
  | String c s' =>
      if is_special c then ("", s)
      else let '(f, rest) := read_raw s' in (String c f, rest)
  end.

Fixpoint read_quoted (s : string) : option (string * string) :=
  match s with
  | EmptyString => None
  | String c s' =>
      if Ascii.eqb c dquote then
        match s' with
        | String c' s'' =>
            if Ascii.eqb c' dquote then
              match read_quoted s'' with
              | Some (f, rest) => Some (String dquote f, rest)
              | None => None
              end
            else Some ("", s')
        | EmptyString => Some ("", "")
        end
      else
        match read_quoted s' with
        | Some (f, rest) => Some (String c f, rest)
        | None => None
        end
  end.

Definition read_field (s : string) : option (string * string) :=
  match s with
  | String c s' => if Ascii.eqb c dquote then read_quoted s' else Some (read_raw s)
  | EmptyString => Some ("", "")
  end.

(** A text that can follow a field: nothing, or a separator. *)
Definition field_end (rest : string) : Prop :=
  match rest with
  | EmptyString => True
  | String c _ => is_special c = true ∧ Ascii.eqb c dquote = false
  end.

(** A URL that is answered with status 200 and the same body whenever it
    is requested. *)
Definition serves (net : nat → string → http_outcome) (url : string)
    (body : list byte) : Prop :=
  ∀ i, ∃ r, net i url = Answer r ∧ status_code r = 200 ∧ content r = body.

(** The downloads of the installer: each URL with its destination. *)
Definition download_plan (md : path) : list (string * path) :=
  zip factor_urls (map (pjoin (unparsed_factor_data md)) factor_filenames) ++
  zip ontology_urls
    (map (pjoin (unparsed_ontology_data md)) ontology_filenames).

(** ** Sample inputs *)

(** A package directory that holds one file downloaded earlier and one
    subdirectory. *)
Definition sample_fs : gmap path node :=
  <[ ["srv"; "pkg"; "cache"] := Dir ]>
    (<[ ["srv"; "pkg"; "old.txt"] := File (list_byte_of_string "old") ]>
       (<[ ["srv"; "pkg"] := Dir ]> (<[ ["srv"] := Dir ]> ∅))).

Definition sample_world : world := mkWorld sample_fs [].

(** A server that answers every request with the same status and body. *)
Definition net_always (status : Z) (body : string) (reply : option pyvalue)
    : nat → string → http_outcome :=
  λ _ _, Answer (mkResponse status (list_byte_of_string body) reply).

(** A network that is down. *)
Definition net_down : nat → string → http_outcome :=
  λ _ _, NetFail "connection timed out".

(** A text for lists and dicts; the samples never print one. *)
Definition sample_repr : pyvalue → string := λ _, "<container>".

(** A network on which the first two requests, those of the factor
    files, fail and every later one is answered. *)
Definition net_late : nat → string → http_outcome :=
  λ i _, if (i <? 2)%nat then NetFail "connection reset"
         else Answer (mkResponse 200 (list_byte_of_string "data") None).

(** A package directory where a directory sits at the destination of
    the first factor file. *)
Definition blocked_fs : gmap path node :=
  <[ ["srv"; "pkg"; "data"; "unparsed_factor_data"; "gene_info.gz"] := Dir ]>
    (<[ ["srv"; "pkg"; "data"; "unparsed_factor_data"] := Dir ]>
       (<[ ["srv"; "pkg"; "data"] := Dir ]> sample_fs)).

(** The sample world once the installer has made its directories. *)
Definition sample_after_directories : world :=
  (create_directories (get_data_dir ["srv"; "pkg"])
     (emit (EvPrint MsgInstalling) sample_world)).1.

(** Three genes with zero, two and one synonyms, and an API that serves
    them: the gene set lists the three associations, each detail page
    lists the synonyms of its gene, anything else is not found. *)
Definition sample_genes : list gene_info :=
  [mkGene "ARID1A" "/api/1.0/gene/ARID1A" [];
   mkGene "SMARCA4" "/api/1.0/gene/SMARCA4" ["BRG1"; "SNF2B"];
   mkGene "CHD4" "/api/1.0/gene/CHD4" ["Mi-2b"]].

Definition association_json (g : gene_info) : pyvalue :=
  PDict [("gene", PDict [("symbol", PStr (gi_symbol g));
                         ("href", PStr (gi_href g))]);
         ("thresholdValue", PFloat "1.0")].

Definition detail_json (g : gene_info) : pyvalue :=
  PDict [("symbol", PStr (gi_symbol g));
         ("synonyms", PList (map PStr (gi_synonyms g)))].

Definition reply (status : Z) (v : pyvalue) : http_outcome :=
  Answer (mkResponse status [] (Some v)).

Definition sample_api : nat → string → http_outcome :=
  λ _ url,
    if String.eqb url chromatin_remodelers_url then
      reply 200 (PDict [("associations",
                         PList (map association_json sample_genes))])
    else
      match List.find (λ g, String.eqb url (gene_url g)) sample_genes with
      | Some g => reply 200 (detail_json g)
      | None => Answer (mkResponse 404 [] None)
      end.

(** The same API, except that the detail page of the second gene
    answers 503. *)
Definition flaky_api : nat → string → http_outcome :=
  λ i url,
    if String.eqb url (base_url +:+ "/api/1.0/gene/SMARCA4") then
      Answer (mkResponse 503 [] None)
    else sample_api i url.

(** An API whose gene set answers 300 with an empty JSON object. *)
Definition multiple_choices_api : nat → string → http_outcome :=
  λ _ _, reply 300 (PDict []).

Definition sample_csv : path := ["srv"; "pkg"; "chromatin_remodelers.csv"].

(** A server whose first answer differs from the later ones. *)
Definition net_two_bodies : nat → string → http_outcome :=
  λ i _, Answer (mkResponse 200
                   (list_byte_of_string (if (i =? 0)%nat then "first"
                                         else "second")) None).

(** The sample API with a second association that names no gene. *)
Definition nameless_association : pyvalue :=
  PDict [("thresholdValue", PFloat "1.0")].

Definition broken_api : nat → string → http_outcome :=
  λ i url,
    if String.eqb url chromatin_remodelers_url then
      reply 200
        (PDict [("associations",
                 PList [association_json (mkGene "ARID1A" "/api/1.0/gene/ARID1A" []);
                        nameless_association;
                        association_json (mkGene "CHD4" "/api/1.0/gene/CHD4"
                                            ["Mi-2b"])])])
    else sample_api i url.

(** The sample API, except that the synonyms of the second gene hold a
    null. *)
Definition null_synonym_api : nat → string → http_outcome :=
  λ i url,
    if String.eqb url (base_url +:+ "/api/1.0/gene/SMARCA4") then
      reply 200 (PDict [("synonyms", PList [PStr "BRG1"; PNone])])
    else sample_api i url.

Definition gene_ARID1A : gene_info := mkGene "ARID1A" "/api/1.0/gene/ARID1A" [].

Definition gene_SMARCA4 : gene_info :=
  mkGene "SMARCA4" "/api/1.0/gene/SMARCA4" ["BRG1"; "SNF2B"].

Definition gene_CHD4 : gene_info := mkGene "CHD4" "/api/1.0/gene/CHD4" ["Mi-2b"].

(** A package directory where a regular file has the name of the third
    data directory. *)
Definition file_in_the_way_fs : gmap path node :=
  <[ ["srv"; "pkg"; "data"; "parsed_factor_data"] :=
       File (list_byte_of_string "not a directory") ]>
    (<[ ["srv"; "pkg"; "data"] := Dir ]> sample_fs).

(** A server that answers every request with status 200 and the URL
    itself as the body. *)
Definition net_echo : nat → string → http_outcome :=
  λ _ url, Answer (mkResponse 200 (list_byte_of_string url) None).

(** ** The file system *)

Lemma open_error_None m p :
  open_error m p = None ↔ is_dir m (parent p) = true ∧ is_dir m p = false.
Proof.
  unfold open_error. destruct (is_dir m p); [split; [done | intros [_ ?]; done] |].
  destruct (is_dir m (parent p)); [done |].
  destruct (path_exists m (parent p)); split; (done || intros [? _]; done).
Qed.

Lemma is_dir_true m p : is_dir m p = true ↔ p = [] ∨ m !! p = Some Dir.
Proof.
  unfold is_dir. destruct p as [|c p]; [by split; [left |] |].
  destruct (m !! (c :: p)) as [[|]|]; split; intros H;
    try done; try (by right); by destruct H.
Qed.

Lemma is_dir_insert_file m p data q :
  is_dir m p = false → is_dir (<[p := File data]> m) q = is_dir m q.
Proof.
  intros Hp. destruct (decide (q = p)) as [->|Hne].
  - rewrite Hp. unfold is_dir in *. destruct p; [done |].
    by rewrite lookup_insert_eq.
  - unfold is_dir. destruct q; [done |]. by rewrite lookup_insert_ne.
Qed.

Lemma is_dir_insert_dir m p q :
  is_dir m q = true → is_dir (<[p := Dir]> m) q = true.
Proof.
  rewrite !is_dir_true. intros [->|Hq]; [by left | right].
  destruct (decide (p = q)) as [->|Hne];
    [by rewrite lookup_insert_eq | by rewrite lookup_insert_ne].
Qed.

Lemma fs_wf_write m p data :
  fs_wf m → open_error m p = None → fs_wf (<[p := File data]> m).
Proof.
  intros Hwf [Hpar Hp]%open_error_None q n Hq.
  assert (p ≠ []) as Hnil by (intros ->; done).
  rewrite is_dir_insert_file by done.
  destruct (decide (p = q)) as [<-|Hne]; [done |].
  rewrite lookup_insert_ne in Hq by done. by apply Hwf in Hq.
Qed.

Lemma is_dir_exists m p : is_dir m p = true → path_exists m p = true.
Proof.
  intros [->|Hp]%is_dir_true; [done |]. unfold path_exists.
  destruct p; [done |]. apply bool_decide_eq_true. by rewrite Hp.
Qed.

Lemma path_exists_false m p : path_exists m p = false → m !! p = None.
Proof.
  unfold path_exists. destruct p; [done |]. intros H%bool_decide_eq_false.
  by apply eq_None_not_Some.
Qed.

Lemma parent_snoc (p : path) (c : string) : parent (p ++ [c]) = p.
Proof. apply removelast_last. Qed.

Lemma grows_refl p m : grows p m m.
Proof. split; [done | by left]. Qed.

Lemma grows_trans p1 p2 m m1 m2 :
  p1 `prefix_of` p2 → grows p1 m m1 → grows p2 m1 m2 → grows p2 m m2.
Proof.
  intros Hpre [Hwf1 H1] [Hwf2 H2]. split; [tauto |]. intros q.
  destruct (H2 q) as [E2|(N2 & D2 & P2)], (H1 q) as [E1|(N1 & D1 & P1)].
  - left. congruence.
  - right. repeat split; [done | congruence | by etrans].
  - right. repeat split; [congruence | done | done].
  - congruence.
Qed.

Lemma grows_is_dir p m m' q :
  grows p m m' → is_dir m q = true → is_dir m' q = true.
Proof.
  intros [_ H]. rewrite !is_dir_true. intros [->|Hq]; [by left | right].
  destruct (H q) as [E|(N & _)]; congruence.
Qed.

Lemma grows_not_dir p m m' q :
  grows p m m' → ¬ q `prefix_of` p → is_dir m' q = is_dir m q.
Proof.
  intros [_ H] Hq. unfold is_dir. destruct q; [done |].
  destruct (H (s :: q)) as [->|(_ & _ & ?)]; done.
Qed.

Lemma fs_wf_mkdir m p :
  fs_wf m → is_dir m (parent p) = true → p ≠ [] → fs_wf (<[p := Dir]> m).
Proof.
  intros Hwf Hpar Hnil q n Hq.
  destruct (decide (p = q)) as [<-|Hne].
  - split; [done |]. by apply is_dir_insert_dir.
  - rewrite lookup_insert_ne in Hq by done. apply Hwf in Hq as [? ?].
    split; [done |]. by apply is_dir_insert_dir.
Qed.

Lemma mkdir_spec m p m' r :
  mkdir m p = (m', r) →
  grows p m m' ∧ (r = None → is_dir m' p = true).
Proof.
  unfold mkdir. destruct (path_exists m p) eqn:Hex.
  { intros [= <- <-]. split; [apply grows_refl | done]. }
  destruct (is_dir m (parent p)) eqn:Hpar.
  - intros [= <- <-]. apply path_exists_false in Hex as Hnone.
    assert (p ≠ []) as Hnil by (intros ->; done).
    split; [split |].
    + intros Hwf. by apply fs_wf_mkdir.
    + intros q. destruct (decide (p = q)) as [<-|Hne].
      * right. by rewrite lookup_insert_eq.
      * left. by rewrite lookup_insert_ne.
    + intros _. apply is_dir_true. right. by rewrite lookup_insert_eq.
  - destruct (path_exists m (parent p)); intros [= <- <-];
      (split; [apply grows_refl | done]).
Qed.

Lemma makedirs_rev_spec rp m m' r :
  makedirs_rev rp m = (m', r) →
  grows (rev rp) m m' ∧ (r = None → is_dir m' (rev rp) = true).
Proof.
  revert m m' r. induction rp as [|tail rhead IH]; intros m m' r.
  { intros [= <- <-]. split; [apply grows_refl | done]. }
  cbn [makedirs_rev rev].
  assert (rev rhead `prefix_of` rev rhead ++ [tail]) as Hpre
    by by apply prefix_app_r.
  set (heads := if negb (path_exists m (rev rhead)) then _ else _).
  assert (∃ m1 r1, heads = (m1, r1) ∧ grows (rev rhead) m m1) as
    (m1 & r1 & -> & G1).
  { subst heads. destruct (negb _).
    - destruct (makedirs_rev rhead m) as [m1 r1] eqn:E.
      apply IH in E as [G _]. destruct r1 as [[]|]; eauto.
    - eexists _, _. split; [done | apply grows_refl]. }
  destruct r1 as [e|].
  { intros [= <- <-]. split; [| done].
    eapply grows_trans; [exact Hpre | exact G1 | apply grows_refl]. }
  destruct (mkdir m1 (rev rhead ++ [tail])) as [m2 r2] eqn:E2.
  apply mkdir_spec in E2 as [G2 D2].
  assert (grows (rev rhead ++ [tail]) m m2) as G
    by (eapply grows_trans; [exact Hpre | exact G1 | exact G2]).
  destruct r2 as [e|].
  - destruct (is_dir m2 _) eqn:Hd; intros [= <- <-]; by split.
  - intros [= <- <-]. split; [done | auto].
Qed.

(** Creating a directory that is already there changes nothing. *)
Lemma makedirs_rev_existing rp m :
  fs_wf m → is_dir m (rev rp) = true → makedirs_rev rp m = (m, None).
Proof.
  intros Hwf Hd. destruct rp as [|tail rhead]; [done |].
  cbn [makedirs_rev rev] in *.
  apply is_dir_true in Hd as Hl. destruct Hl as [Hl|Hl];
    [by destruct (rev rhead) |].
  apply Hwf in Hl as [_ Hpar]. rewrite parent_snoc in Hpar.
  rewrite (is_dir_exists _ _ Hpar). cbn [negb].
  unfold mkdir. rewrite (is_dir_exists _ _ Hd). by rewrite Hd.
Qed.

Lemma makedirs_existing p w :
  fs_wf (fs w) → is_dir (fs w) p = true →
  makedirs p w = (emit (EvMakedirs p) w, Normal tt).
Proof.
  intros Hwf Hd. unfold makedirs.
  rewrite makedirs_rev_existing; [done | done | by rewrite rev_involutive].
Qed.

Lemma makedirs_spec p w w' res :
  makedirs p w = (w', res) →
  log w' = log w ++ [EvMakedirs p] ∧ grows p (fs w) (fs w') ∧
  (res = Normal tt → is_dir (fs w') p = true).
Proof.
  unfold makedirs. destruct (makedirs_rev _ _) as [m r] eqn:E.
  apply makedirs_rev_spec in E as [G D]. rewrite rev_involutive in G, D.
  destruct r; intros [= <- <-]; simpl; (split; [done | split; [done |]]);
    [done | auto].
Qed.

(** ** [download_file] *)

Section DownloadFile.
Variable net : nat → string → http_outcome.

Lemma download_file_200 w url folder filename r :
  net (requests_before w) url = Answer r →
  status_code r = 200 →
  download_file net url folder filename w =
    match open_error (fs w) (folder // filename) with
    | None =>
        (mkWorld (<[folder // filename := File (content r)]> (fs w))
           (log w ++ [EvGet url; EvWrite (folder // filename) (content r);
                      EvPrint (MsgDownloaded filename folder)]),
         Normal tt)
    | Some k => (emit (EvGet url) w, Raised (OSError k))
    end.
Proof.
  intros Hnet Hst. unfold requests_before in Hnet.
  unfold download_file, try_except, bind, requests_get. rewrite Hnet, Hst.
  simpl. unfold write_file, emit. simpl.
  destruct (open_error _ _); simpl; [done |].
  unfold print, emit. simpl. by rewrite <- !app_assoc.
Qed.

Lemma download_file_not_200 w url folder filename r :
  net (requests_before w) url = Answer r →
  status_code r ≠ 200 →
  download_file net url folder filename w =
    (mkWorld (fs w)
       (log w ++ [EvGet url; EvPrint (MsgFailed url (status_code r))]),
     Normal tt).
Proof.
  intros Hnet Hst. unfold requests_before in Hnet.
  unfold download_file, try_except, bind, requests_get. rewrite Hnet.
  apply Z.eqb_neq in Hst. rewrite Hst. unfold print, emit. simpl.
  by rewrite <- app_assoc.
Qed.

Lemma download_file_net_fail w url folder filename reason :
  net (requests_before w) url = NetFail reason →
  download_file net url folder filename w =
    (mkWorld (fs w)
       (log w ++ [EvGet url;
                  EvPrint (MsgErrorDownloading url (ConnectionError reason))]),
     Normal tt).
Proof.
  intros Hnet. unfold requests_before in Hnet.
  unfold download_file, try_except, bind, requests_get. rewrite Hnet.
  unfold print, emit. simpl. by rewrite <- app_assoc.
Qed.

End DownloadFile.

Lemma file_step_refl m : file_step m m.
Proof. by split. Qed.

Lemma file_step_trans m1 m2 m3 :
  file_step m1 m2 → file_step m2 m3 → file_step m1 m3.
Proof.
  intros [W1 D1] [W2 D2]. split; [tauto |]. intros q. by rewrite D2, D1.
Qed.

Lemma file_step_write m p data :
  open_error m p = None → file_step m (<[p := File data]> m).
Proof.
  intros Ho. split; [intros; by apply fs_wf_write |].
  intros q. apply is_dir_insert_file. by apply open_error_None in Ho as [_ ?].
Qed.

(** ** The event log *)

Lemma gets_app l1 l2 : gets (l1 ++ l2) = gets l1 ++ gets l2.
Proof. apply omap_app. Qed.

Lemma writes_app l1 l2 : writes (l1 ++ l2) = writes l1 ++ writes l2.
Proof. apply omap_app. Qed.

Lemma gets_map_EvGet urls : gets (map EvGet urls) = urls.
Proof. induction urls as [|u urls IH]; [done |]. cbn. by f_equal. Qed.

Lemma writes_map_EvGet urls : writes (map EvGet urls) = [].
Proof. by induction urls. Qed.

Lemma requests_before_emit_get u w :
  requests_before (emit (EvGet u) w) = S (requests_before w).
Proof.
  unfold requests_before, emit. cbn [log]. rewrite gets_app, length_app.
  cbn. lia.
Qed.

(** ** The synonym fetch *)

Section Fetch.
Variable net : nat → string → http_outcome.
Variable cr : pyvalue → string.

Lemma subscript_pure v key w : (subscript v key w).1 = w.
Proof. destruct v; try done. cbn. by destruct (dict_lookup _ _). Qed.

Lemma dict_get_pure v key d w : (dict_get v key d w).1 = w.
Proof. destruct v; try done. cbn. by destruct (dict_lookup _ _). Qed.

Lemma py_iter_pure v w : (py_iter v w).1 = w.
Proof. by destruct v. Qed.

Lemma str_join_pure sep v w : (str_join sep v w).1 = w.
Proof.
  unfold str_join, bind. destruct v; try done; cbn;
    by destruct (all_strings _).
Qed.

Lemma raise_for_status_run r w :
  raise_for_status r w =
    (w, if is_error_status (status_code r)
        then Raised (HTTPError (status_code r)) else Normal tt).
Proof. unfold raise_for_status. by destruct (is_error_status _). Qed.

Lemma response_json_pure r w : (response_json r w).1 = w.
Proof. unfold response_json. by destruct (json r). Qed.

Lemma requests_get_run url w :
  requests_get net url w =
    (emit (EvGet url) w,
     match net (requests_before w) url with
     | NetFail reason => Raised (ConnectionError reason)
     | Answer r => Normal r
     end).
Proof. unfold requests_get, requests_before. by destruct (net _ _). Qed.

(** Runs a step that leaves the world alone. *)
Ltac pure_step lem :=
  match goal with
  | |- context [match ?m ?w with _ => _ end] =>
      let E := fresh "E" in
      let P := fresh "P" in
      let w1 := fresh "w" in
      let r := fresh "r" in
      pose proof (lem w) as P;
      destruct (m w) as [w1 r] eqn:E; cbn [fst] in P; subst w1;
      destruct r; [| intros [= <- <-]; eauto]
  end.

(** One iteration issues at most one request and writes nothing; when
    the request fails, the iteration raises that failure. *)
Lemma fetch_gene_spec a w w' res :
  fetch_gene net cr a w = (w', res) →
  (w' = w ∧ ∃ e, res = Raised e) ∨
  (∃ u, w' = emit (EvGet u) w ∧
        ∀ e, request_error (net (requests_before w) u) = Some e →
             res = Raised e).
Proof.
  unfold fetch_gene, bind.
  pure_step (subscript_pure a "gene").
  pure_step (subscript_pure a0 "symbol").
  pure_step (subscript_pure a "gene").
  pure_step (subscript_pure a2 "href").
  rewrite requests_get_run. set (u := base_url +:+ py_str cr a3).
  intros H. right. exists u. revert H.
  unfold request_error. destruct (net _ u) as [reason|r].
  { intros [= <- <-]. split; [done |]. by intros e [= <-]. }
  rewrite raise_for_status_run. destruct (is_error_status _).
  { intros [= <- <-]. split; [done |]. by intros e [= <-]. }
  intros H. enough (w' = emit (EvGet u) w) by (split; [done | done]).
  revert H.
  pure_step (response_json_pure r).
  pure_step (dict_get_pure a4 "synonyms" (PList [])).
  destruct (truthy a5).
  - pure_step (str_join_pure ", " a5). by intros [= <- <-].
  - cbn. by intros [= <- <-].
Qed.

Lemma for_append_spec items acc w w' res :
  for_append items (fetch_gene net cr) acc w = (w', res) →
  fs w' = fs w ∧
  ∃ urls, log w' = log w ++ map EvGet urls ∧
    ∀ j u e, urls !! j = Some u →
      request_error (net (requests_before w + j) u) = Some e →
      res = Raised e.
Proof.
  revert acc w w' res.
  induction items as [|a items IH]; intros acc w w' res.
  { intros [= <- <-]. split; [done |]. exists []. cbn.
    by rewrite app_nil_r. }
  cbn [for_append]. unfold bind at 1.
  destruct (fetch_gene net cr a w) as [w1 r1] eqn:E.
  apply fetch_gene_spec in E as [[-> [e ->]]|(u & -> & Hu)].
  { intros [= <- <-]. split; [done |]. exists []. cbn.
    by rewrite app_nil_r. }
  destruct r1 as [r|e0].
  - intros (Hfs & urls & Hlog & Hreq)%IH. split; [done |].
    exists (u :: urls). split.
    { rewrite Hlog. cbn. by rewrite <- app_assoc. }
    intros [|j] u' e.
    + cbn. intros [= <-]. rewrite Nat.add_0_r. by intros [=]%Hu.
    + cbn. intros Hj. cbn [fs emit] in Hfs. rewrite requests_before_emit_get in Hreq.
      replace (requests_before w + S j)%nat
        with (S (requests_before w) + j)%nat by lia.
      by apply Hreq.
  - intros [= <- <-]. split; [done |]. exists [u]. split; [done |].
    intros [|j] u' e; [| done]. cbn. intros [= <-].
    rewrite Nat.add_0_r. intros He. specialize (Hu _ He). congruence.
Qed.

(** The requests of a run: the gene-set URL first; nothing is written;
    a failing request ends the phase with its error. *)
Lemma collect_chromatin_data_spec w w' res :
  collect_chromatin_data net cr w = (w', res) →
  fs w' = fs w ∧
  ∃ mid, log w' = log w ++ map EvGet (chromatin_remodelers_url :: mid) ∧
    ∀ j u e, (chromatin_remodelers_url :: mid) !! j = Some u →
      request_error (net (requests_before w + j) u) = Some e →
      res = Raised e.
Proof.
  unfold collect_chromatin_data. unfold bind at 1.
  rewrite requests_get_run. set (u := chromatin_remodelers_url).
  assert (∀ w1 (r1 : outcome (list row)), w1 = emit (EvGet u) w →
    (∀ e, request_error (net (requests_before w) u) = Some e →
          r1 = Raised e) →
    fs w1 = fs w ∧ ∃ mid, log w1 = log w ++ map EvGet (u :: mid) ∧
      ∀ j u' e, (u :: mid) !! j = Some u' →
        request_error (net (requests_before w + j) u') = Some e →
        r1 = Raised e) as Stop.
  { intros w1 r1 -> Hu. split; [done |]. exists []. split; [done |].
    intros [|j] u' e; [| done]. cbn. intros [= <-].
    rewrite Nat.add_0_r. apply Hu. }
  unfold request_error in Stop. destruct (net _ u) as [reason|r] eqn:Hnet.
  { intros [= <- <-]. apply Stop; [done |]. by intros e [= <-]. }
  unfold bind at 1. rewrite raise_for_status_run.
  destruct (is_error_status _) eqn:Hst.
  { intros [= <- <-]. apply Stop; [done |]. by intros e [= <-]. }
  assert (∀ e,
    fs (emit (EvGet u) w) = fs w ∧
    ∃ mid, log (emit (EvGet u) w) = log w ++ map EvGet (u :: mid) ∧
      ∀ j u' e', (u :: mid) !! j = Some u' →
        request_error (net (requests_before w + j) u') = Some e' →
        @Raised (list row) e = Raised e') as Stop'.
  { intros e. apply Stop; [done | done]. }
  unfold bind.
  pose proof (response_json_pure r (emit (EvGet u) w)) as P.
  destruct (response_json r _) as [w1 [data|e]] eqn:E1; cbn [fst] in P;
    subst w1; [| intros [= <- <-]; apply Stop'].
  pose proof (dict_get_pure data "associations" (PList [])
                (emit (EvGet u) w)) as P.
  destruct (dict_get data _ _ _) as [w1 [assocs|e]] eqn:E2; cbn [fst] in P;
    subst w1; [| intros [= <- <-]; apply Stop'].
  pose proof (py_iter_pure assocs (emit (EvGet u) w)) as P.
  destruct (py_iter assocs _) as [w1 [items|e]] eqn:E3; cbn [fst] in P;
    subst w1; [| intros [= <- <-]; apply Stop'].
  intros (Hfs & urls & Hlog & Hreq)%for_append_spec. split; [done |].
  exists urls. split.
  { rewrite Hlog. cbn. by rewrite <- app_assoc. }
  intros [|j] u' e.
  - cbn. intros [= <-]. rewrite Nat.add_0_r, Hnet. unfold request_error.
    by rewrite Hst.
  - cbn. intros Hj. rewrite requests_before_emit_get in Hreq.
    replace (requests_before w + S j)%nat
      with (S (requests_before w) + j)%nat by lia.
    by apply Hreq.
Qed.

(** The two phases of the fetch and its [except] clauses, spelled
    out. *)
Lemma fetch_unfold output_csv w :
  fetch_chromatin_remodelers_and_synonyms net cr output_csv w =
    match collect_chromatin_data net cr w with
    | (w1, Raised e) => (emit (EvPrint (error_report e)) w1, Normal tt)
    | (w1, Normal chromatin_data) =>
        match open_error (fs w1) output_csv with
        | Some k =>
            (emit (EvPrint (MsgOtherError (OSError k))) w1, Normal tt)
        | None =>
            (mkWorld
               (<[output_csv := File (csv_bytes cr chromatin_data)]> (fs w1))
               (log w1 ++ [EvWrite output_csv (csv_bytes cr chromatin_data);
                           EvPrint (MsgSaved output_csv)]),
             Normal tt)
        end
    end.
Proof.
  unfold fetch_chromatin_remodelers_and_synonyms, try_except.
  unfold bind at 1.
  destruct (collect_chromatin_data net cr w) as [w1 [rows|e]].
  - unfold bind, write_file. destruct (open_error _ _); [done |].
    unfold print, emit. cbn. by rewrite <- app_assoc.
  - unfold error_report. by destruct (is_RequestException e).
Qed.

Lemma all_strings_map_PStr l : all_strings (map PStr l) = Some l.
Proof. induction l as [|s l IH]; [done |]. cbn. by rewrite IH. Qed.

Lemma fetch_gene_ok a g w r :
  association_of a g →
  net (requests_before w) (gene_url g) = Answer r →
  detail_of r g →
  fetch_gene net cr a w = (emit (EvGet (gene_url g)) w, Normal (row_of g)).
Proof.
  intros (entries & gene & -> & Hgene & Hsym & Hhref) Hnet
    (Hst & dentries & Hjson & Hsyn).
  unfold fetch_gene, bind. cbn [subscript]. rewrite Hgene.
  cbn [ret subscript]. rewrite Hsym. cbn [ret subscript]. rewrite Hhref.
  cbn [ret py_str]. rewrite requests_get_run. fold (gene_url g). rewrite Hnet.
  rewrite raise_for_status_run, Hst. unfold response_json. rewrite Hjson.
  cbn [ret dict_get]. unfold row_of.
  destruct Hsyn as [->|[-> ->]]; [| done]. cbn [ret].
  destruct (gi_synonyms g) as [|s l] eqn:Hl; [done |]. rewrite <- Hl.
  replace (truthy (PList (map PStr (gi_synonyms g)))) with true
    by by rewrite Hl.
  unfold str_join, bind. cbn [py_iter ret].
  rewrite all_strings_map_PStr. cbn [ret]. by rewrite Hl.
Qed.

Lemma for_append_ok items genes acc w :
  Forall2 association_of items genes →
  (∀ i g, genes !! i = Some g →
     ∃ r, net (requests_before w + i) (gene_url g) = Answer r ∧
          detail_of r g) →
  for_append items (fetch_gene net cr) acc w =
    (mkWorld (fs w) (log w ++ map EvGet (map gene_url genes)),
     Normal (acc ++ map row_of genes)).
Proof.
  intros Hall. revert acc w.
  induction Hall as [|a g items genes Ha _ IH]; intros acc w Hnet.
  { cbn. rewrite !app_nil_r. by destruct w. }
  cbn [for_append]. unfold bind.
  destruct (Hnet 0%nat g eq_refl) as (r & Hr & Hd).
  rewrite Nat.add_0_r in Hr. rewrite (fetch_gene_ok a g w r) by done.
  rewrite IH.
  - cbn. by rewrite <- !app_assoc.
  - intros i g' Hi. rewrite requests_before_emit_get.
    destruct (Hnet (S i) g' Hi) as (r' & Hr' & Hd').
    exists r'. split; [| done].
    by replace (S (requests_before w) + i)%nat
      with (requests_before w + S i)%nat by lia.
Qed.

Lemma collect_chromatin_data_ok w r entries assocs genes :
  net (requests_before w) chromatin_remodelers_url = Answer r →
  is_error_status (status_code r) = false →
  json r = Some (PDict entries) →
  (dict_lookup "associations" entries = Some (PList assocs) ∨
   dict_lookup "associations" entries = None ∧ assocs = []) →
  Forall2 association_of assocs genes →
  (∀ i g, genes !! i = Some g →
     ∃ r', net (requests_before w + 1 + i) (gene_url g) = Answer r' ∧
           detail_of r' g) →
  collect_chromatin_data net cr w =
    (mkWorld (fs w)
       (log w ++ map EvGet (chromatin_remodelers_url :: map gene_url genes)),
     Normal (map row_of genes)).
Proof.
  intros Hnet Hst Hjson Hassoc Hall Hgenes.
  unfold collect_chromatin_data. unfold bind at 1.
  rewrite requests_get_run, Hnet. unfold bind at 1.
  rewrite raise_for_status_run, Hst. unfold bind at 1.
  unfold response_json. rewrite Hjson. cbn [ret]. unfold bind at 1.
  assert (dict_get (PDict entries) "associations" (PList [])
            (emit (EvGet chromatin_remodelers_url) w) =
          (emit (EvGet chromatin_remodelers_url) w, Normal (PList assocs)))
    as ->.
  { cbn [dict_get]. by destruct Hassoc as [->|[-> ->]]. }
  unfold bind. cbn [py_iter ret].
  rewrite (for_append_ok assocs genes); [| done |].
  - cbn. by rewrite <- app_assoc.
  - intros i g Hi. rewrite requests_before_emit_get.
    destruct (Hgenes i g Hi) as (r' & Hr' & Hd'). exists r'.
    split; [| done].
    by replace (S (requests_before w) + i)%nat
      with (requests_before w + 1 + i)%nat by lia.
Qed.

Lemma row_fields_row_of g : row_fields cr (row_of g) = expected_record g.
Proof. done. Qed.

Lemma fetch_ok output_csv w r entries assocs genes :
  net (requests_before w) chromatin_remodelers_url = Answer r →
  is_error_status (status_code r) = false →
  json r = Some (PDict entries) →
  (dict_lookup "associations" entries = Some (PList assocs) ∨
   dict_lookup "associations" entries = None ∧ assocs = []) →
  Forall2 association_of assocs genes →
  (∀ i g, genes !! i = Some g →
     ∃ r', net (requests_before w + 1 + i) (gene_url g) = Answer r' ∧
           detail_of r' g) →
  open_error (fs w) output_csv = None →
  let data :=
    list_byte_of_string (csv_text (fieldnames :: map expected_record genes)) in
  fetch_chromatin_remodelers_and_synonyms net cr output_csv w =
    (mkWorld (<[output_csv := File data]> (fs w))
       (log w ++
        map EvGet (chromatin_remodelers_url :: map gene_url genes) ++
        [EvWrite output_csv data; EvPrint (MsgSaved output_csv)]),
     Normal tt).
Proof.
  intros Hnet Hst Hjson Hassoc Hall Hgenes Hopen data.
  rewrite fetch_unfold.
  rewrite (collect_chromatin_data_ok w r entries assocs genes) by done.
  cbn [fs log]. rewrite Hopen. unfold csv_bytes.
  rewrite map_map. rewrite (map_ext _ _ row_fields_row_of).
  fold data. by rewrite <- app_assoc.
Qed.

End Fetch.

(** ** Lines of the CSV text *)

Lemma append_cons c (s t : string) : String c s +:+ t = String c (s +:+ t).
Proof. done. Qed.

Lemma append_empty_r (s : string) : s +:+ "" = s.
Proof. induction s as [|c s IH]; [done |]. by rewrite append_cons, IH. Qed.






Lemma csv_line_two a b :
  csv_line [a; b] = (csv_field a +:+ "," +:+ csv_field b) +:+ CRLF.
Proof. unfold csv_line. by destruct a. Qed.

Lemma csv_text_cons r rs : csv_text (r :: rs) = csv_line r +:+ csv_text rs.
Proof.
  unfold csv_text.
  change (map csv_line (r :: rs)) with (csv_line r :: map csv_line rs).
  destruct (map csv_line rs) as [|y l]; [| done].
  cbn. by rewrite append_empty_r.
Qed.




(** ** The installer *)

Section Install.
Variable net : nat → string → http_outcome.
Variable cr : pyvalue → string.
Variable md : path.

Lemma download_file_spec url folder filename w w' res :
  download_file net url folder filename w = (w', res) →
  ∃ l, log w' = log w ++ l ∧ gets l = [url] ∧
       (∀ p, p ∈ writes l → p = folder // filename) ∧
       file_step (fs w) (fs w') ∧
       (open_error (fs w) (folder // filename) = None → res = Normal tt).
Proof.
  destruct (net (requests_before w) url) as [reason|r] eqn:Hnet.
  { rewrite (download_file_net_fail _ _ _ _ _ _ Hnet). intros [= <- <-].
    eexists. split; [done |]. cbn. split; [done |].
    split; [by intros p ?%elem_of_nil |].
    split; [apply file_step_refl | done]. }
  destruct (decide (status_code r = 200)) as [Hst|Hst].
  - rewrite (download_file_200 _ _ _ _ _ _ Hnet Hst).
    destruct (open_error _ _) eqn:Hopen; intros [= <- <-].
    + exists [EvGet url]. split; [done |]. split; [done |].
      split; [by intros p ?%elem_of_nil |].
      split; [apply file_step_refl | done].
    + eexists. split; [done |]. cbn. split; [done |].
      split; [by intros p ->%list_elem_of_singleton |].
      split; [by apply file_step_write | done].
  - rewrite (download_file_not_200 _ _ _ _ _ _ Hnet Hst). intros [= <- <-].
    eexists. split; [done |]. cbn. split; [done |].
    split; [by intros p ?%elem_of_nil |].
    split; [apply file_step_refl | done].
Qed.

Lemma fetch_spec output_csv w w' res :
  fetch_chromatin_remodelers_and_synonyms net cr output_csv w = (w', res) →
  res = Normal tt ∧
  ∃ l mid, log w' = log w ++ l ∧
    gets l = chromatin_remodelers_url :: mid ∧
    (∀ p, p ∈ writes l → p = output_csv) ∧
    file_step (fs w) (fs w').
Proof.
  rewrite fetch_unfold.
  destruct (collect_chromatin_data net cr w) as [w1 r1] eqn:E.
  apply collect_chromatin_data_spec in E as (Hfs & mid & Hlog & _).
  assert (∀ m, gets (map EvGet (chromatin_remodelers_url :: mid) ++
                     [EvPrint m]) = chromatin_remodelers_url :: mid) as Hg.
  { intros m. rewrite gets_app, gets_map_EvGet. apply app_nil_r. }
  assert (∀ m p, p ∈ writes (map EvGet (chromatin_remodelers_url :: mid) ++
                             [EvPrint m]) → p = output_csv) as Hw.
  { intros m p. rewrite writes_app, writes_map_EvGet.
    by intros ?%elem_of_nil. }
  destruct r1 as [rows|e]; [destruct (open_error _ _) eqn:Hopen |];
    intros [= <- <-]; (split; [done |]).
  - eexists _, mid. cbn [log fs emit]. rewrite Hlog, Hfs, <- app_assoc.
    split; [done |]. split; [apply Hg |]. split; [apply Hw |].
    apply file_step_refl.
  - eexists _, mid. cbn [log fs]. rewrite Hlog, Hfs, <- app_assoc.
    split; [done |]. rewrite gets_app, writes_app, gets_map_EvGet,
      writes_map_EvGet. cbn. rewrite app_nil_r. split; [done |].
    split; [by intros p ->%list_elem_of_singleton |].
    apply file_step_write. by rewrite <- Hfs.
  - eexists _, mid. cbn [log fs emit]. rewrite Hlog, Hfs, <- app_assoc.
    split; [done |]. split; [apply Hg |]. split; [apply Hw |].
    apply file_step_refl.
Qed.

(** The downloads of one directory, when every destination can be
    opened: each returns normally, whatever the network does. *)
Lemma for_each_download_spec folder (l : list (string * string)) w w' res :
  for_each l (λ '(url, filename), download_file net url folder filename) w
    = (w', res) →
  (∀ uf, uf ∈ l → open_error (fs w) (folder // uf.2) = None) →
  res = Normal tt ∧
  ∃ la, log w' = log w ++ la ∧ gets la = map fst l ∧
    (∀ p, p ∈ writes la → p ∈ map (λ uf, folder // uf.2) l) ∧
    file_step (fs w) (fs w').
Proof.
  revert w. induction l as [|[url filename] l IH]; intros w.
  { intros [= <- <-] _. split; [done |]. exists []. rewrite app_nil_r.
    split; [done |]. split; [done |].
    split; [by intros p ?%elem_of_nil | apply file_step_refl]. }
  cbn [for_each]. unfold bind at 1.
  destruct (download_file net url folder filename w) as [w1 r1] eqn:E.
  apply download_file_spec in E as (l1 & Hlog1 & Hg1 & Hw1 & Hstep1 & Hok).
  intros Hrun Hopen.
  rewrite (Hok (Hopen (url, filename) ltac:(left))) in Hrun.
  apply IH in Hrun as (-> & la & Hlog & Hg & Hw & Hstep).
  - split; [done |]. exists (l1 ++ la). rewrite Hlog, Hlog1, <- app_assoc.
    split; [done |]. rewrite gets_app, writes_app, Hg1, Hg.
    split; [done |]. split; [| by eapply file_step_trans].
    intros p [Hp|Hp]%elem_of_app.
    + rewrite (Hw1 p Hp). left.
    + right. by apply Hw.
  - intros uf Huf. destruct Hstep1 as [_ Hdirs].
    specialize (Hopen uf ltac:(by right)).
    apply open_error_None in Hopen as [? ?].
    apply open_error_None. by rewrite !Hdirs.
Qed.

End Install.

Lemma makedirs_step p w w' res :
  makedirs p w = (w', res) →
  log w' = log w ++ [EvMakedirs p] ∧
  (fs_wf (fs w) → fs_wf (fs w')) ∧
  (∀ q, is_dir (fs w) q = true → is_dir (fs w') q = true) ∧
  (∀ q, ¬ q `prefix_of` p → is_dir (fs w') q = is_dir (fs w) q) ∧
  (res = Normal tt → is_dir (fs w') p = true).
Proof.
  intros (Hlog & G & Hd)%makedirs_spec. split; [done |].
  split; [apply G |]. split; [intros q; by eapply grows_is_dir |].
  split; [intros q Hq; by eapply grows_not_dir | done].
Qed.

Lemma create_directories_spec md w w' :
  create_directories (get_data_dir md) w = (w', Normal tt) →
  log w' = log w ++ map EvMakedirs (data_dirs md) ∧
  (fs_wf (fs w) → fs_wf (fs w')) ∧
  (∀ q, is_dir (fs w) q = true → is_dir (fs w') q = true) ∧
  (∀ q, Forall (λ d, ¬ q `prefix_of` d) (data_dirs md) →
        is_dir (fs w') q = is_dir (fs w) q) ∧
  Forall (λ d, is_dir (fs w') d = true) (data_dirs md).
Proof.
  unfold create_directories, bind.
  destruct (makedirs _ w) as [w1 [[]|e]] eqn:E1; [| done].
  destruct (makedirs _ w1) as [w2 [[]|e]] eqn:E2; [| done].
  destruct (makedirs _ w2) as [w3 [[]|e]] eqn:E3; [| done].
  intros E4.
  apply makedirs_step in E1 as (L1 & W1 & K1 & N1 & D1).
  apply makedirs_step in E2 as (L2 & W2 & K2 & N2 & D2).
  apply makedirs_step in E3 as (L3 & W3 & K3 & N3 & D3).
  apply makedirs_step in E4 as (L4 & W4 & K4 & N4 & D4).
  split; [rewrite L4, L3, L2, L1; by rewrite <- !app_assoc |].
  split; [tauto |]. split; [by auto |]. split.
  - intros q Hq. unfold data_dirs in Hq. rewrite !Forall_cons in Hq.
    destruct Hq as (H1 & H2 & H3 & H4 & _).
    rewrite N4, N3, N2, N1; done.
  - unfold data_dirs. repeat constructor.
    + apply K4, K3, K2, D1. done.
    + apply K4, K3, D2. done.
    + apply K4, D3. done.
    + by apply D4.
Qed.

(** Creating the four directories when they are all there does nothing
    but log the calls. *)
Lemma create_directories_existing md w :
  fs_wf (fs w) →
  Forall (λ d, is_dir (fs w) d = true) (data_dirs md) →
  create_directories (get_data_dir md) w =
    (mkWorld (fs w) (log w ++ map EvMakedirs (data_dirs md)), Normal tt).
Proof.
  intros Hwf Hd. unfold data_dirs in Hd. rewrite !Forall_cons in Hd.
  destruct Hd as (H1 & H2 & H3 & H4 & _).
  unfold create_directories, bind.
  rewrite makedirs_existing by done.
  rewrite makedirs_existing by done.
  rewrite makedirs_existing by done.
  rewrite makedirs_existing by done.
  unfold emit. cbn. by rewrite <- !app_assoc.
Qed.

Lemma data_dirs_eq md :
  data_dirs md =
    [(md ++ ["data"]) ++ ["unparsed_factor_data"];
     (md ++ ["data"]) ++ ["unparsed_ontology_data"];
     (md ++ ["data"]) ++ ["parsed_factor_data"];
     (md ++ ["data"]) ++ ["parsed_ontology_data"]].
Proof. reflexivity. Qed.

Lemma download_destinations_eq md :
  download_destinations md =
    [unparsed_factor_data md ++ ["gene_info.gz"];
     unparsed_factor_data md ++ ["Homo_sapiens_TF.csv"];
     unparsed_ontology_data md ++ ["cellosaurus.txt"];
     unparsed_ontology_data md ++ ["efo.owl"];
     unparsed_ontology_data md ++ ["uberon-full.json"]].
Proof. reflexivity. Qed.

Lemma chromatin_remodelers_csv_eq md :
  chromatin_remodelers_csv md =
    parsed_factor_data md ++ ["chromatin_remodelers.csv"].
Proof.
  change (chromatin_remodelers_csv md) with
    ((md ++ ["data"]) ++ ["parsed_factor_data"] ++ ["chromatin_remodelers.csv"]).
  change (parsed_factor_data md) with
    ((md ++ ["data"]) ++ ["parsed_factor_data"]).
  by rewrite app_assoc.
Qed.

Lemma data_dir_length md d :
  d ∈ data_dirs md → List.length d = (List.length md + 2)%nat.
Proof.
  rewrite data_dirs_eq. rewrite !elem_of_cons. intros H.
  repeat (destruct H as [->|H]; [by rewrite !length_app; cbn; lia |]).
  by apply elem_of_nil in H.
Qed.

Lemma destination_length md p :
  p ∈ download_destinations md → List.length p = (List.length md + 3)%nat.
Proof.
  rewrite download_destinations_eq.
  assert (List.length (unparsed_factor_data md) = (List.length md + 2)%nat)
    as H1 by (apply data_dir_length; left).
  assert (List.length (unparsed_ontology_data md) = (List.length md + 2)%nat)
    as H2 by (apply data_dir_length; right; left).
  rewrite !elem_of_cons. intros H.
  repeat (destruct H as [->|H];
            [rewrite length_app, ?H1, ?H2; cbn [List.length]; lia |]).
  by apply elem_of_nil in H.
Qed.

Lemma destination_not_prefix md p :
  p ∈ download_destinations md →
  Forall (λ d, ¬ p `prefix_of` d) (data_dirs md).
Proof.
  intros Hp%destination_length. apply Forall_forall.
  intros d Hd%data_dir_length Hpre%prefix_length. lia.
Qed.

Lemma file_step_Forall m m' b (l : list path) :
  file_step m m' →
  Forall (λ p, is_dir m p = b) l → Forall (λ p, is_dir m' p = b) l.
Proof.
  intros [_ H] Hl. eapply Forall_impl; [exact Hl |].
  intros p Hp. by rewrite H.
Qed.

(** With the directories in place and no directory in the way, every
    download destination can be opened. *)
Lemma destinations_open md m :
  Forall (λ d, is_dir m d = true) (data_dirs md) →
  Forall (λ p, is_dir m p = false) (download_destinations md) →
  (∀ uf, uf ∈ zip factor_urls factor_filenames →
         open_error m (unparsed_factor_data md // uf.2) = None) ∧
  (∀ uf, uf ∈ zip ontology_urls ontology_filenames →
         open_error m (unparsed_ontology_data md // uf.2) = None).
Proof.
  unfold data_dirs. rewrite download_destinations_eq, !Forall_cons.
  intros (D1 & D2 & _) (F1 & F2 & F3 & F4 & F5 & _).
  split; intros uf Huf; cbn in Huf; rewrite !elem_of_cons in Huf;
    repeat (destruct Huf as [->|Huf];
      [apply open_error_None; cbn [snd];
       match goal with
       | |- context [?d // ?f] => change (d // f) with (d ++ [f])
       end; by rewrite parent_snoc |]);
    by apply elem_of_nil in Huf.
Qed.

Section InstallSteps.
Variable net : nat → string → http_outcome.
Variable cr : pyvalue → string.
Variable md : path.

Lemma for_each_download_step folder (l : list (string * string)) w w' res :
  for_each l (λ '(url, filename), download_file net url folder filename) w
    = (w', res) →
  file_step (fs w) (fs w').
Proof.
  revert w. induction l as [|[url filename] l IH]; intros w.
  { intros [= <- <-]. apply file_step_refl. }
  cbn [for_each]. unfold bind at 1.
  destruct (download_file net url folder filename w) as [w1 r1] eqn:E.
  apply download_file_spec in E as (l1 & _ & _ & _ & Hstep1 & _).
  destruct r1; [| by intros [= <- <-]].
  intros Hrun%IH. by eapply file_step_trans.
Qed.

(** Once the directories are made, the rest of a run only writes
    files, however it ends. *)
Lemma install_data_after_directories w wd w' res :
  create_directories (get_data_dir md) (emit (EvPrint MsgInstalling) w)
    = (wd, Normal tt) →
  install_data net cr md w = (w', res) →
  file_step (fs wd) (fs w').
Proof.
  intros Hdirs. unfold install_data. unfold bind at 1. cbn [print].
  unfold bind at 1. cbv zeta. rewrite Hdirs. unfold bind at 1.
  destruct (for_each _ _ wd) as [w2 r2] eqn:Ea.
  apply for_each_download_step in Ea.
  destruct r2; [| by intros [= <- <-]].
  unfold bind at 1.
  destruct (fetch_chromatin_remodelers_and_synonyms _ _ _ w2)
    as [w3 r3] eqn:Eb.
  apply fetch_spec in Eb as (-> & _ & _ & _ & _ & _ & Sb).
  intros Ec%for_each_download_step.
  eapply file_step_trans; [exact Ea |].
  eapply file_step_trans; [exact Sb | exact Ec].
Qed.

End InstallSteps.

(** ** Failures of the synonym fetch *)

Lemma is_error_status_true s : is_error_status s = true ↔ 400 ≤ s < 600.
Proof. unfold is_error_status. rewrite andb_true_iff. lia. Qed.

Section FetchFailure.
Variable net : nat → string → http_outcome.
Variable cr : pyvalue → string.

(** An exception before the write phase: the [except] clause reports
    it, and nothing was written. *)
Lemma fetch_aborts output_csv w w1 e :
  collect_chromatin_data net cr w = (w1, Raised e) →
  fetch_chromatin_remodelers_and_synonyms net cr output_csv w =
    (emit (EvPrint (error_report e)) w1, Normal tt) ∧
  fs w1 = fs w ∧ writes (log w1) = writes (log w).
Proof.
  intros E. rewrite fetch_unfold, E. split; [done |].
  apply collect_chromatin_data_spec in E as (Hfs & mid & Hlog & _).
  split; [done |].
  by rewrite Hlog, writes_app, writes_map_EvGet, app_nil_r.
Qed.

(** The requests of a whole run are those of its first phase. *)
Lemma fetch_gets output_csv w w1 r1 :
  collect_chromatin_data net cr w = (w1, r1) →
  gets (log (fetch_chromatin_remodelers_and_synonyms net cr output_csv w).1)
    = gets (log w1).
Proof.
  intros E. rewrite fetch_unfold, E.
  destruct r1 as [rows|e]; [destruct (open_error _ _) |]; cbn;
    by rewrite gets_app, app_nil_r.
Qed.

(** A request of the run that fails ends the first phase with its
    error. *)
Lemma failed_request_raises output_csv w j u e :
  gets (log (fetch_chromatin_remodelers_and_synonyms net cr output_csv w).1)
    !! (requests_before w + j)%nat = Some u →
  request_error (net (requests_before w + j)%nat u) = Some e →
  ∃ w1, collect_chromatin_data net cr w = (w1, Raised e).
Proof.
  destruct (collect_chromatin_data net cr w) as [w1 r1] eqn:E.
  rewrite (fetch_gets _ _ _ _ E).
  apply collect_chromatin_data_spec in E as (_ & mid & Hlog & Hreq).
  rewrite Hlog, gets_app, gets_map_EvGet.
  rewrite lookup_app_r by (unfold requests_before; lia).
  replace (requests_before w + j - List.length (gets (log w)))%nat with j
    by (unfold requests_before; lia).
  intros Hj He. exists w1. by rewrite (Hreq j u e Hj He).
Qed.

End FetchFailure.

(** * The model at work *)

Example pjoin_single : ["srv"; "pkg"] // "data" = ["srv"; "pkg"; "data"].
Proof. reflexivity. Qed.

Example pjoin_nested :
  ["srv"] // "parsed_factor_data/chromatin_remodelers.csv" =
    ["srv"; "parsed_factor_data"; "chromatin_remodelers.csv"].
Proof. reflexivity. Qed.

Example pjoin_absolute : ["srv"; "pkg"] // "/tmp/x" = ["tmp"; "x"].
Proof. reflexivity. Qed.

Example makedirs_creates_parents :
  map_to_list (makedirs_rev (rev ["a"; "b"; "c"]) ∅).1 ≡ₚ
    [(["a"], Dir); (["a"; "b"], Dir); (["a"; "b"; "c"], Dir)] ∧
  (makedirs_rev (rev ["a"; "b"; "c"]) ∅).2 = None.
Proof. vm_compute. split; [| done]. by rewrite (Permutation_rev [_; _; _]). Qed.

Example makedirs_blocked_by_file :
  (makedirs_rev (rev ["a"; "b"]) (<[ ["a"] := File [] ]> ∅)).2 =
    Some NotADirectoryError.
Proof. reflexivity. Qed.

Example makedirs_on_file :
  (makedirs_rev (rev ["a"]) (<[ ["a"] := File [] ]> ∅)).2 =
    Some FileExistsError.
Proof. reflexivity. Qed.

Example open_in_missing_directory :
  open_error sample_fs ["srv"; "nowhere"; "f.txt"] = Some FileNotFoundError.
Proof. reflexivity. Qed.

Example join_two : join_strings ", " ["BRG1"; "SNF2B"] = "BRG1, SNF2B".
Proof. reflexivity. Qed.

(** A field that holds a comma is written between quotes. *)
Example csv_sample_text :
  csv_text (fieldnames :: map expected_record sample_genes) =
    "chromatin_remodeler,synonyms" +:+ CRLF +:+
    "ARID1A," +:+ CRLF +:+
    "SMARCA4," +:+ String dquote "BRG1, SNF2B" +:+ String dquote CRLF +:+
    "CHD4,Mi-2b" +:+ CRLF.
Proof. reflexivity. Qed.

Example csv_quote_doubled :
  csv_field (String dquote "x") =
    String dquote (String dquote (String dquote ("x" +:+ String dquote ""))).
Proof. reflexivity. Qed.

(** A dict iterates over its keys, and a key has no string subscript:
    a gene set whose associations are an object ends in a [TypeError],
    which the second [except] clause reports. *)
Example fetch_associations_object :
  fetch_chromatin_remodelers_and_synonyms
    (net_always 200 "" (Some (PDict [("associations", PDict [("a", PNone)])])))
    sample_repr sample_csv sample_world =
    (mkWorld sample_fs
       [EvGet chromatin_remodelers_url; EvPrint (MsgOtherError TypeError)],
     Normal tt).
Proof. reflexivity. Qed.

(** The whole installer on a network that is down: the directories are
    made, the six requests are issued in order and nothing is written. *)
Example install_data_offline :
  let w' := (install_data net_down sample_repr ["srv"; "pkg"] sample_world).1 in
  (install_data net_down sample_repr ["srv"; "pkg"] sample_world).2 = Normal tt ∧
  gets (log w') =
    factor_urls ++ [chromatin_remodelers_url] ++ ontology_urls ∧
  writes (log w') = [] ∧
  Forall (λ d, is_dir (fs w') d = true) (data_dirs ["srv"; "pkg"]).
Proof. vm_compute. repeat split; repeat constructor. Qed.

(** Two runs in a row: the second one finds the directories and the
    files of the first. *)
Example install_data_twice :
  let w1 := (install_data net_late sample_repr ["srv"; "pkg"] sample_world).1 in
  let w2 := (install_data net_late sample_repr ["srv"; "pkg"] w1).1 in
  (install_data net_late sample_repr ["srv"; "pkg"] w1).2 = Normal tt ∧
  fs w1 !! (unparsed_ontology_data ["srv"; "pkg"] // "efo.owl") =
    Some (File (list_byte_of_string "data")) ∧
  fs w1 !! (unparsed_factor_data ["srv"; "pkg"] // "gene_info.gz") = None ∧
  fs w2 !! (unparsed_factor_data ["srv"; "pkg"] // "gene_info.gz") =
    Some (File (list_byte_of_string "data")).
Proof. vm_compute. repeat split. Qed.

(** * The claims *)

(** ** [download_file] *)

(** C1: when the GET request is answered with status 200, [download_file]
    writes exactly the body of the response to [folder / filename],
    replacing whatever file was there, and returns normally.  The
    destination must be a place where a file can be opened: its directory
    exists and the destination is not itself a directory. *)
Theorem download_file_writes_body net w url folder filename r :
  net (requests_before w) url = Answer r →
  status_code r = 200 →
  is_dir (fs w) (parent (folder // filename)) = true →
  is_dir (fs w) (folder // filename) = false →
  ∃ w', download_file net url folder filename w = (w', Normal tt) ∧
        fs w' = <[folder // filename := File (content r)]> (fs w) ∧
        fs w' !! (folder // filename) = Some (File (content r)) ∧
        log w' = log w ++ [EvGet url;
                           EvWrite (folder // filename) (content r);
                           EvPrint (MsgDownloaded filename folder)].
Proof.
  intros Hnet Hst Hpar Hdest.
  rewrite (download_file_200 _ _ _ _ _ _ Hnet Hst).
  replace (open_error _ _) with (@None os_error)
    by (symmetry; by apply open_error_None).
  eexists. split; [done |]. cbn. split; [done |].
  split; [apply lookup_insert_eq | done].
Qed.

(** The file [old.txt] is replaced by the three bytes of the body. *)
Lemma download_file_writes_body_witness :
  ∃ w', download_file (net_always 200 "new" None) "http://example.org/f"
          ["srv"; "pkg"] "old.txt" sample_world = (w', Normal tt) ∧
        fs w' = <[ ["srv"; "pkg"] // "old.txt" :=
                     File (list_byte_of_string "new") ]> sample_fs ∧
        fs w' !! (["srv"; "pkg"] // "old.txt") =
          Some (File (list_byte_of_string "new")) ∧
        log w' = [EvGet "http://example.org/f";
                  EvWrite (["srv"; "pkg"] // "old.txt")
                    (list_byte_of_string "new");
                  EvPrint (MsgDownloaded "old.txt" ["srv"; "pkg"])].
Proof.
  apply (download_file_writes_body (net_always 200 "new" None) sample_world
           "http://example.org/f" ["srv"; "pkg"] "old.txt"
           (mkResponse 200 (list_byte_of_string "new") None));
    vm_compute; reflexivity.
Defined.

(** C4: when the GET request is answered with a status other than 200,
    [download_file] writes nothing: the file system is unchanged and the
    only effects are the request and the message that reports the
    status code. *)
Theorem download_file_bad_status net w url folder filename r :
  net (requests_before w) url = Answer r →
  status_code r ≠ 200 →
  download_file net url folder filename w =
    (mkWorld (fs w)
       (log w ++ [EvGet url; EvPrint (MsgFailed url (status_code r))]),
     Normal tt).
Proof. apply download_file_not_200. Qed.

Lemma download_file_bad_status_witness :
  download_file (net_always 404 "not found" None) "http://example.org/f"
    ["srv"; "pkg"] "new.txt" sample_world =
    (mkWorld sample_fs
       [EvGet "http://example.org/f";
        EvPrint (MsgFailed "http://example.org/f" 404)],
     Normal tt).
Proof.
  apply (download_file_bad_status (net_always 404 "not found" None)
           sample_world "http://example.org/f" ["srv"; "pkg"] "new.txt"
           (mkResponse 404 (list_byte_of_string "not found") None)).
  - reflexivity.
  - vm_compute. discriminate.
Defined.

(** C10: a failed download, by a status other than 200 or by a network
    error, leaves the file system as it was; in particular a file at the
    destination keeps its bytes. *)
Theorem failed_download_keeps_file net w url folder filename :
  download_fails (net (requests_before w) url) →
  ∃ w', download_file net url folder filename w = (w', Normal tt) ∧
        fs w' = fs w ∧
        ∀ data, fs w !! (folder // filename) = Some (File data) →
                fs w' !! (folder // filename) = Some (File data).
Proof.
  unfold download_fails.
  destruct (net (requests_before w) url) as [reason|r] eqn:Hnet; intros Hf.
  - rewrite (download_file_net_fail _ _ _ _ _ _ Hnet). by eexists.
  - rewrite (download_file_not_200 _ _ _ _ _ _ Hnet Hf). by eexists.
Qed.

Lemma failed_download_keeps_file_witness :
  ∃ w', download_file net_down "http://example.org/f"
          ["srv"; "pkg"] "old.txt" sample_world = (w', Normal tt) ∧
        fs w' = sample_fs ∧
        ∀ data, sample_fs !! (["srv"; "pkg"] // "old.txt") = Some (File data) →
                fs w' !! (["srv"; "pkg"] // "old.txt") = Some (File data).
Proof.
  apply (failed_download_keeps_file net_down sample_world
           "http://example.org/f" ["srv"; "pkg"] "old.txt").
  exact I.
Defined.

(** C5, refuted as stated: the body arrives with status 200 but the
    destination is a directory, so [open] raises an [OSError]; the
    [except] clause only catches request errors and the exception
    reaches the caller. *)
Lemma download_file_oserror_escapes :
  is_dir sample_fs ["srv"; "pkg"] = true ∧
  ∃ w', download_file (net_always 200 "new" None) "http://example.org/f"
          ["srv"; "pkg"] "cache" sample_world =
          (w', Raised (OSError IsADirectoryError)).
Proof. split; [reflexivity |]. eexists. vm_compute. reflexivity. Qed.

(** C5, amended: [download_file] returns no value, and it returns
    normally whenever the download fails or the destination can be opened
    for writing; a network-level error is caught and reported, and the
    file system is left as it was. *)
Theorem download_file_returns_normally net w url folder filename :
  download_fails (net (requests_before w) url) ∨
  open_error (fs w) (folder // filename) = None →
  ∃ w', download_file net url folder filename w = (w', Normal tt) ∧
        ∀ reason, net (requests_before w) url = NetFail reason →
          fs w' = fs w ∧
          log w' = log w ++
            [EvGet url;
             EvPrint (MsgErrorDownloading url (ConnectionError reason))].
Proof.
  unfold download_fails.
  destruct (net (requests_before w) url) as [reason|r] eqn:Hnet.
  { intros _. rewrite (download_file_net_fail _ _ _ _ _ _ Hnet).
    eexists. split; [done |]. by intros ? [= <-]. }
  destruct (decide (status_code r = 200)) as [Hst|Hst].
  - intros [?|Hopen]; [done |].
    rewrite (download_file_200 _ _ _ _ _ _ Hnet Hst), Hopen. by eexists.
  - intros _. rewrite (download_file_not_200 _ _ _ _ _ _ Hnet Hst).
    by eexists.
Qed.

Lemma download_file_returns_normally_witness :
  ∃ w', download_file net_down "http://example.org/f"
          ["srv"; "pkg"] "cache" sample_world = (w', Normal tt) ∧
        ∀ reason, net_down (requests_before sample_world)
                    "http://example.org/f" = NetFail reason →
          fs w' = fs sample_world ∧
          log w' = log sample_world ++
            [EvGet "http://example.org/f";
             EvPrint (MsgErrorDownloading "http://example.org/f"
                        (ConnectionError reason))].
Proof.
  apply (download_file_returns_normally net_down sample_world
           "http://example.org/f" ["srv"; "pkg"] "cache").
  left. exact I.
Defined.

(** ** [install_data] *)

(** C7: on a file system where the four data directories already exist,
    creating them again raises no error and changes nothing; hence after
    a run of the installer whose directory creation succeeded, however
    that run ended, the directory creation of the next run succeeds and
    leaves the file system as it is. *)
Theorem create_directories_idempotent net cr md w :
  fs_wf (fs w) →
  (Forall (λ d, is_dir (fs w) d = true) (data_dirs md) →
   create_directories (get_data_dir md) w =
     (mkWorld (fs w) (log w ++ map EvMakedirs (data_dirs md)), Normal tt)) ∧
  (∀ wd w1 res,
     create_directories (get_data_dir md) (emit (EvPrint MsgInstalling) w)
       = (wd, Normal tt) →
     install_data net cr md w = (w1, res) →
     create_directories (get_data_dir md) (emit (EvPrint MsgInstalling) w1) =
       (mkWorld (fs w1)
          (log w1 ++ EvPrint MsgInstalling :: map EvMakedirs (data_dirs md)),
        Normal tt)).
Proof.
  intros Hwf. split; [by apply create_directories_existing |].
  intros wd w1 res Hdirs Hrun.
  pose proof (install_data_after_directories _ _ _ _ _ _ _ Hdirs Hrun)
    as Hstep.
  apply create_directories_spec in Hdirs as (_ & Hwd & _ & _ & Hd).
  rewrite create_directories_existing.
  - cbn. by rewrite <- app_assoc.
  - apply Hstep, Hwd, Hwf.
  - cbn [fs emit]. by eapply file_step_Forall.
Qed.

Lemma create_directories_idempotent_witness :
  let md := ["srv"; "pkg"] in
  (Forall (λ d, is_dir (fs sample_world) d = true) (data_dirs md) →
   create_directories (get_data_dir md) sample_world =
     (mkWorld (fs sample_world)
        (log sample_world ++ map EvMakedirs (data_dirs md)), Normal tt)) ∧
  (∀ wd w1 res,
     create_directories (get_data_dir md)
       (emit (EvPrint MsgInstalling) sample_world) = (wd, Normal tt) →
     install_data net_late sample_repr md sample_world = (w1, res) →
     create_directories (get_data_dir md) (emit (EvPrint MsgInstalling) w1) =
       (mkWorld (fs w1)
          (log w1 ++ EvPrint MsgInstalling :: map EvMakedirs (data_dirs md)),
        Normal tt)).
Proof.
  apply (create_directories_idempotent net_late sample_repr ["srv"; "pkg"]
           sample_world).
  unfold fs_wf. apply (bool_decide_unpack _). vm_compute. exact I.
Defined.

(** C6, refuted as stated: the first factor file arrives with status 200
    but a directory sits at its destination; the [OSError] of [open]
    leaves [download_file] and ends the run in step (a).  The only
    request ever issued is the first one: neither the synonym fetch nor
    the ontology downloads run. *)
Lemma install_data_stops_on_oserror :
  ∃ w', install_data (net_always 200 "data" None) sample_repr ["srv"; "pkg"]
          (mkWorld blocked_fs []) = (w', Raised (OSError IsADirectoryError)) ∧
        gets (log w') = ["https://ftp.ncbi.nih.gov/gene/DATA/gene_info.gz"].
Proof. eexists. vm_compute. split; reflexivity. Qed.

(** C6, amended: in every run in which directory creation raises no
    error and no download destination is an existing directory,
    [install_data] makes the four directories, which then exist, and
    afterwards performs in this order (a) the requests for the two factor
    files, writing only into the factor directory, (b) the synonym fetch,
    which starts with the gene-set request and writes only the CSV of the
    parsed-factor directory, (c) the requests for the three ontology
    files, writing only into the ontology directory.  This holds for every
    behaviour of the network, so a download of step (a) that fails by its
    status or by a network error never keeps steps (b) and (c) from
    running. *)
Theorem install_data_in_order net cr md w wd :
  create_directories (get_data_dir md) (emit (EvPrint MsgInstalling) w)
    = (wd, Normal tt) →
  Forall (λ p, is_dir (fs w) p = false) (download_destinations md) →
  ∃ w' la lb lc mid,
    install_data net cr md w = (w', Normal tt) ∧
    log w' = log w ++ EvPrint MsgInstalling ::
               map EvMakedirs (data_dirs md) ++ la ++ lb ++ lc ∧
    Forall (λ d, is_dir (fs wd) d = true) (data_dirs md) ∧
    Forall (λ d, is_dir (fs w') d = true) (data_dirs md) ∧
    gets la = factor_urls ∧
    (∀ p, p ∈ writes la →
          p ∈ map (pjoin (unparsed_factor_data md)) factor_filenames) ∧
    gets lb = chromatin_remodelers_url :: mid ∧
    (∀ p, p ∈ writes lb → p = chromatin_remodelers_csv md) ∧
    gets lc = ontology_urls ∧
    (∀ p, p ∈ writes lc →
          p ∈ map (pjoin (unparsed_ontology_data md)) ontology_filenames).
Proof.
  intros Hdirs Hdest.
  pose proof (create_directories_spec _ _ _ Hdirs) as (Ld & _ & _ & Nd & Dd).
  assert (Forall (λ p, is_dir (fs wd) p = false) (download_destinations md))
    as Fd.
  { apply Forall_forall. intros p Hp. rewrite Nd.
    - by eapply Forall_forall in Hdest.
    - by apply destination_not_prefix. }
  unfold install_data. unfold bind at 1. cbn [print].
  unfold bind at 1. cbv zeta. rewrite Hdirs. unfold bind at 1.
  destruct (for_each _ _ wd) as [w2 r2] eqn:Ea.
  apply for_each_download_spec in Ea as (-> & la & La & Ga & Wa & Sa);
    [| by apply destinations_open].
  unfold bind at 1.
  destruct (fetch_chromatin_remodelers_and_synonyms _ _ _ w2)
    as [w3 r3] eqn:Eb.
  apply fetch_spec in Eb as (-> & lb & mid & Lb & Gb & Wb & Sb).
  pose proof (file_step_trans _ _ _ Sa Sb) as Sab.
  destruct (for_each _ _ w3) as [w4 r4] eqn:Ec.
  apply for_each_download_spec in Ec as (-> & lc & Lc & Gc & Wc & Sc);
    [| apply destinations_open; by eapply file_step_Forall].
  exists w4, la, lb, lc, mid. split; [done |].
  split.
  { rewrite Lc, Lb, La, Ld. cbn [log emit].
    by rewrite <- !app_assoc. }
  split; [done |].
  split; [eapply file_step_Forall; [| exact Dd];
          by eapply file_step_trans |].
  split; [exact Ga |]. split.
  { intros p Hp%Wa. revert Hp. cbn. by rewrite !elem_of_cons. }
  split; [exact Gb |]. split; [exact Wb |]. split; [exact Gc |].
  intros p Hp%Wc. revert Hp. cbn. by rewrite !elem_of_cons.
Qed.

(** The first two downloads fail, the rest of the run still happens. *)
Lemma install_data_in_order_witness :
  let md := ["srv"; "pkg"] in
  ∃ w' la lb lc mid,
    install_data net_late sample_repr md sample_world = (w', Normal tt) ∧
    log w' = log sample_world ++ EvPrint MsgInstalling ::
               map EvMakedirs (data_dirs md) ++ la ++ lb ++ lc ∧
    Forall (λ d, is_dir (fs sample_after_directories) d = true)
      (data_dirs md) ∧
    Forall (λ d, is_dir (fs w') d = true) (data_dirs md) ∧
    gets la = factor_urls ∧
    (∀ p, p ∈ writes la →
          p ∈ map (pjoin (unparsed_factor_data md)) factor_filenames) ∧
    gets lb = chromatin_remodelers_url :: mid ∧
    (∀ p, p ∈ writes lb → p = chromatin_remodelers_csv md) ∧
    gets lc = ontology_urls ∧
    (∀ p, p ∈ writes lc →
          p ∈ map (pjoin (unparsed_ontology_data md)) ontology_filenames).
Proof.
  apply (install_data_in_order net_late sample_repr ["srv"; "pkg"]
           sample_world sample_after_directories).
  - vm_compute. reflexivity.
  - vm_compute. repeat constructor.
Defined.

(** ** [fetch_chromatin_remodelers_and_synonyms] *)



(** C9: when the gene-set response carries no [associations] field, or
    an empty list, the fetch issues no further request and writes a CSV
    that holds the header record alone.  The output must be a place
    where a file can be opened. *)
Theorem fetch_without_associations net cr output_csv w r entries :
  net (requests_before w) chromatin_remodelers_url = Answer r →
  is_error_status (status_code r) = false →
  json r = Some (PDict entries) →
  dict_lookup "associations" entries = None ∨
  dict_lookup "associations" entries = Some (PList []) →
  is_dir (fs w) (parent output_csv) = true →
  is_dir (fs w) output_csv = false →
  let data := list_byte_of_string (csv_line fieldnames) in
  fetch_chromatin_remodelers_and_synonyms net cr output_csv w =
    (mkWorld (<[output_csv := File data]> (fs w))
       (log w ++ [EvGet chromatin_remodelers_url; EvWrite output_csv data;
                  EvPrint (MsgSaved output_csv)]),
     Normal tt).
Proof.
  intros Hnet Hst Hjson Hassoc Hpar Hout data.
  assert (open_error (fs w) output_csv = None) as Hopen
    by by apply open_error_None.
  rewrite (fetch_ok net cr output_csv w r entries [] []); try done.
  destruct Hassoc as [?|?]; [by right | by left].
Qed.

Lemma fetch_without_associations_witness :
  let data := list_byte_of_string (csv_line fieldnames) in
  fetch_chromatin_remodelers_and_synonyms
    (net_always 200 "{}" (Some (PDict []))) sample_repr sample_csv
    sample_world =
    (mkWorld (<[sample_csv := File data]> (fs sample_world))
       (log sample_world ++
        [EvGet chromatin_remodelers_url; EvWrite sample_csv data;
         EvPrint (MsgSaved sample_csv)]),
     Normal tt).
Proof.
  apply (fetch_without_associations (net_always 200 "{}" (Some (PDict [])))
           sample_repr sample_csv sample_world
           (mkResponse 200 (list_byte_of_string "{}") (Some (PDict []))) []).
  - reflexivity.
  - reflexivity.
  - reflexivity.
  - left. reflexivity.
  - reflexivity.
  - reflexivity.
Defined.

(** C3: when a request of the run fails (the gene-set request or a
    detail request: a network error or a status that [raise_for_status]
    rejects) or any exception is raised before the write phase, the fetch
    writes nothing at all, so that an output path that did not exist
    still does not exist; it prints an error message and returns
    normally. *)
Theorem fetch_failure_writes_nothing net cr output_csv w :
  (∃ j u e,
     gets (log (fetch_chromatin_remodelers_and_synonyms net cr output_csv w).1)
       !! (requests_before w + j)%nat = Some u ∧
     request_error (net (requests_before w + j)%nat u) = Some e) ∨
  (∃ w1 e, collect_chromatin_data net cr w = (w1, Raised e)) →
  ∃ w' e,
    fetch_chromatin_remodelers_and_synonyms net cr output_csv w
      = (w', Normal tt) ∧
    fs w' = fs w ∧
    writes (log w') = writes (log w) ∧
    (fs w !! output_csv = None → fs w' !! output_csv = None) ∧
    last (log w') = Some (EvPrint (error_report e)).
Proof.
  intros H.
  assert (∃ w1 e, collect_chromatin_data net cr w = (w1, Raised e))
    as (w1 & e & E).
  { destruct H as [(j & u & e & Hj & He)|H]; [| done].
    destruct (failed_request_raises net cr output_csv w j u e Hj He)
      as [w1 E].
    by exists w1, e. }
  destruct (fetch_aborts net cr output_csv w w1 e E) as (-> & Hfs & Hw).
  exists (emit (EvPrint (error_report e)) w1), e. cbn [fs log emit].
  split; [done |]. split; [done |].
  split; [by rewrite writes_app, app_nil_r |].
  split; [by rewrite Hfs | apply last_snoc].
Qed.

(** The detail request of the second gene is answered 503: no CSV. *)
Lemma fetch_failure_writes_nothing_witness :
  ∃ w' e,
    fetch_chromatin_remodelers_and_synonyms flaky_api sample_repr
      sample_csv sample_world = (w', Normal tt) ∧
    fs w' = fs sample_world ∧
    writes (log w') = writes (log sample_world) ∧
    (fs sample_world !! sample_csv = None → fs w' !! sample_csv = None) ∧
    last (log w') = Some (EvPrint (error_report e)).
Proof.
  apply (fetch_failure_writes_nothing flaky_api sample_repr sample_csv
           sample_world).
  left. exists 2%nat, (base_url +:+ "/api/1.0/gene/SMARCA4"),
    (HTTPError 503).
  split; vm_compute; reflexivity.
Defined.

(** C8, refuted as stated: 300 is not a 2xx status, yet
    [raise_for_status] lets it pass; the body is an empty JSON object
    and the fetch writes the CSV. *)
Lemma fetch_status_300_writes_csv :
  multiple_choices_api (requests_before sample_world)
    chromatin_remodelers_url = reply 300 (PDict []) ∧
  ∃ w', fetch_chromatin_remodelers_and_synonyms multiple_choices_api
          sample_repr sample_csv sample_world = (w', Normal tt) ∧
        fs w' !! sample_csv =
          Some (File (list_byte_of_string (csv_line fieldnames))) ∧
        writes (log w') = [sample_csv].
Proof.
  split; [reflexivity |]. eexists. vm_compute. repeat split; reflexivity.
Qed.

(** C8, amended: when a request of the run, to the gene-set endpoint or
    to a detail endpoint, is answered with a 4xx or 5xx status, the fetch
    raises that status as an [HTTPError] internally; this ends the
    operation, which reports the error and has written nothing. *)
Theorem fetch_http_error_aborts net cr output_csv w j u r :
  gets (log (fetch_chromatin_remodelers_and_synonyms net cr output_csv w).1)
    !! (requests_before w + j)%nat = Some u →
  net (requests_before w + j)%nat u = Answer r →
  400 ≤ status_code r < 600 →
  ∃ w1,
    collect_chromatin_data net cr w = (w1, Raised (HTTPError (status_code r))) ∧
    fetch_chromatin_remodelers_and_synonyms net cr output_csv w =
      (emit (EvPrint (MsgApiError (HTTPError (status_code r)))) w1,
       Normal tt) ∧
    fs w1 = fs w ∧ writes (log w1) = writes (log w).
Proof.
  intros Hj Hnet Hst%is_error_status_true.
  destruct (failed_request_raises net cr output_csv w j u
              (HTTPError (status_code r)) Hj) as [w1 E].
  { unfold request_error. by rewrite Hnet, Hst. }
  exists w1. split; [done |].
  exact (fetch_aborts net cr output_csv w w1 _ E).
Qed.

Lemma fetch_http_error_aborts_witness :
  ∃ w1,
    collect_chromatin_data flaky_api sample_repr sample_world =
      (w1, Raised (HTTPError 503)) ∧
    fetch_chromatin_remodelers_and_synonyms flaky_api sample_repr sample_csv
      sample_world =
      (emit (EvPrint (MsgApiError (HTTPError 503))) w1, Normal tt) ∧
    fs w1 = fs sample_world ∧ writes (log w1) = writes (log sample_world).
Proof.
  apply (fetch_http_error_aborts flaky_api sample_repr sample_csv sample_world
           2%nat (base_url +:+ "/api/1.0/gene/SMARCA4")
           (mkResponse 503 [] None)).
  - vm_compute. reflexivity.
  - vm_compute. reflexivity.
  - cbn. lia.
Defined.


(** * Further properties of the code *)

(** ** [download_file], whatever happens *)

(** X1: every call issues exactly one request, to [url], and changes the
    file system in at most one place: either nothing is written, or the
    response had status 200 and the destination now holds its body. *)
Theorem download_file_effects net w url folder filename :
  let w' := (download_file net url folder filename w).1 in
  gets (log w') = gets (log w) ++ [url] ∧
  ((writes (log w') = writes (log w) ∧ fs w' = fs w) ∨
   (∃ r, net (requests_before w) url = Answer r ∧ status_code r = 200 ∧
         writes (log w') = writes (log w) ++ [folder // filename] ∧
         fs w' = <[folder // filename := File (content r)]> (fs w))).
Proof.
  destruct (net (requests_before w) url) as [reason|r] eqn:Hnet.
  { rewrite (download_file_net_fail _ _ _ _ _ _ Hnet). cbn.
    rewrite gets_app, writes_app. cbn. rewrite app_nil_r. by split; [| left]. }
  destruct (decide (status_code r = 200)) as [Hst|Hst].
  - rewrite (download_file_200 _ _ _ _ _ _ Hnet Hst).
    destruct (open_error _ _); cbn; rewrite gets_app, writes_app; cbn.
    + rewrite app_nil_r. by split; [| left].
    + split; [done |]. right. by exists r.
  - rewrite (download_file_not_200 _ _ _ _ _ _ Hnet Hst). cbn.
    rewrite gets_app, writes_app. cbn. rewrite app_nil_r. by split; [| left].
Qed.

(** X2: an exception leaves [download_file] exactly when the response has
    status 200 and the destination cannot be opened; it is the [OSError]
    of [open], and by then the request is the only thing that happened:
    nothing is written and no message is printed. *)
Theorem download_file_raises_iff net w url folder filename e :
  ((download_file net url folder filename w).2 = Raised e ↔
   ∃ r k, net (requests_before w) url = Answer r ∧ status_code r = 200 ∧
          open_error (fs w) (folder // filename) = Some k ∧ e = OSError k) ∧
  ((download_file net url folder filename w).2 = Raised e →
   (download_file net url folder filename w).1 = emit (EvGet url) w).
Proof.
  destruct (net (requests_before w) url) as [reason|r] eqn:Hnet.
  { rewrite (download_file_net_fail _ _ _ _ _ _ Hnet). cbn.
    split; [split |]; [done | | done]. by intros (r & k & [=] & _). }
  destruct (decide (status_code r = 200)) as [Hst|Hst].
  - rewrite (download_file_200 _ _ _ _ _ _ Hnet Hst).
    destruct (open_error _ _) as [k|] eqn:Hopen; cbn.
    + split; [split |]; [| | done].
      * intros [= <-]. by exists r, k.
      * by intros (r' & k' & _ & _ & [= <-] & ->).
    + split; [split |]; [done | | done]. by intros (r' & k' & _ & _ & [=] & _).
  - rewrite (download_file_not_200 _ _ _ _ _ _ Hnet Hst). cbn.
    split; [split |]; [done | | done].
    intros (r' & k & [= <-] & Hst' & _). done.
Qed.

(** X3: two downloads to the same destination, both answered with status
    200: the second body replaces the first and nothing else changes. *)
Theorem download_file_last_wins net w url1 url2 folder filename r1 r2 :
  net (requests_before w) url1 = Answer r1 → status_code r1 = 200 →
  net (S (requests_before w)) url2 = Answer r2 → status_code r2 = 200 →
  open_error (fs w) (folder // filename) = None →
  ∃ w1 w2,
    download_file net url1 folder filename w = (w1, Normal tt) ∧
    download_file net url2 folder filename w1 = (w2, Normal tt) ∧
    fs w2 = <[folder // filename := File (content r2)]> (fs w).
Proof.
  intros Hn1 Hs1 Hn2 Hs2 Hopen.
  rewrite (download_file_200 _ _ _ _ _ _ Hn1 Hs1), Hopen.
  eexists _, _. split; [done |].
  rewrite (download_file_200 net _ url2 folder filename r2); [| | done].
  - cbn [fs]. replace (open_error _ _) with (@None os_error).
    + split; [done |]. cbn. apply insert_insert_eq.
    + symmetry. apply open_error_None in Hopen as [Hp Hd].
      apply open_error_None. by rewrite !is_dir_insert_file.
  - unfold requests_before in *. cbn [log]. rewrite gets_app, length_app.
    cbn. by rewrite Nat.add_1_r.
Qed.

Lemma download_file_last_wins_witness :
  ∃ w1 w2,
    download_file net_two_bodies "http://example.org/a"
      ["srv"; "pkg"] "old.txt" sample_world = (w1, Normal tt) ∧
    download_file net_two_bodies "http://example.org/b"
      ["srv"; "pkg"] "old.txt" w1 = (w2, Normal tt) ∧
    fs w2 = <[ ["srv"; "pkg"] // "old.txt" :=
                 File (list_byte_of_string "second") ]> (fs sample_world).
Proof.
  apply (download_file_last_wins net_two_bodies sample_world
           "http://example.org/a" "http://example.org/b" ["srv"; "pkg"]
           "old.txt"
           (mkResponse 200 (list_byte_of_string "first") None)
           (mkResponse 200 (list_byte_of_string "second") None));
    reflexivity.
Defined.

(** ** [fetch_chromatin_remodelers_and_synonyms], whatever happens *)


(** ** Where the synonym fetch stops *)

Lemma for_append_app {A R} (l1 l2 : list A) (body : A → M R) acc w :
  for_append (l1 ++ l2) body acc w =
    match for_append l1 body acc w with
    | (w1, Normal acc1) => for_append l2 body acc1 w1
    | (w1, Raised e) => (w1, Raised e)
    end.
Proof.
  revert acc w. induction l1 as [|a l1 IH]; intros acc w; [done |].
  cbn [for_append app]. unfold bind.
  destruct (body a w) as [w1 [r|e]]; [apply IH | done].
Qed.

Lemma requests_before_after w urls :
  requests_before (after_requests w urls) =
    (requests_before w + List.length urls)%nat.
Proof.
  unfold requests_before, after_requests. cbn [log].
  by rewrite gets_app, gets_map_EvGet, length_app.
Qed.

Section FetchStops.
Variable net : nat → string → http_outcome.
Variable cr : pyvalue → string.

(** The loop runs through the served genes, then raises what the next
    iteration raises; the associations after it are never looked at. *)
Lemma collect_stops w items genes a post w2 e :
  served net w items genes (a :: post) →
  fetch_gene net cr a
    (after_requests w (chromatin_remodelers_url :: map gene_url genes))
    = (w2, Raised e) →
  collect_chromatin_data net cr w = (w2, Raised e).
Proof.
  intros (r & entries & Hnet & Hst & Hjson & Hassoc & Hall & Hgenes) Ha.
  unfold collect_chromatin_data. unfold bind at 1.
  rewrite requests_get_run, Hnet. unfold bind at 1.
  rewrite raise_for_status_run, Hst. unfold bind at 1.
  unfold response_json. rewrite Hjson. cbn [ret]. unfold bind at 1.
  cbn [dict_get]. rewrite Hassoc. cbn [ret]. unfold bind at 1.
  cbn [py_iter ret]. rewrite for_append_app.
  rewrite (for_append_ok net cr items genes); [| done |].
  - cbn [for_append]. unfold bind at 1.
    replace (mkWorld _ _) with
      (after_requests w (chromatin_remodelers_url :: map gene_url genes)).
    + by rewrite Ha.
    + unfold after_requests, emit. cbn. by rewrite <- app_assoc.
  - intros i g Hi. rewrite requests_before_emit_get.
    destruct (Hgenes i g Hi) as (r' & Hr' & Hd'). exists r'.
    split; [| done].
    by replace (S (requests_before w) + i)%nat
      with (requests_before w + 1 + i)%nat by lia.
Qed.

Lemma fetch_stops output_csv w items genes a post w2 e :
  served net w items genes (a :: post) →
  fetch_gene net cr a
    (after_requests w (chromatin_remodelers_url :: map gene_url genes))
    = (w2, Raised e) →
  fetch_chromatin_remodelers_and_synonyms net cr output_csv w =
    (emit (EvPrint (error_report e)) w2, Normal tt).
Proof.
  intros Hs Ha. rewrite fetch_unfold.
  by rewrite (collect_stops w items genes a post w2 e).
Qed.

Lemma fetch_gene_request_fails a g w e :
  association_of a g →
  request_error (net (requests_before w) (gene_url g)) = Some e →
  fetch_gene net cr a w = (emit (EvGet (gene_url g)) w, Raised e).
Proof.
  intros (entries & gene & -> & Hgene & Hsym & Hhref) He.
  unfold fetch_gene, bind. cbn [subscript]. rewrite Hgene.
  cbn [ret subscript]. rewrite Hsym. cbn [ret subscript]. rewrite Hhref.
  cbn [ret py_str]. rewrite requests_get_run. fold (gene_url g).
  unfold request_error in He.
  destruct (net _ (gene_url g)) as [reason|r]; [by injection He as <- |].
  rewrite raise_for_status_run.
  destruct (is_error_status _); [by injection He as <- | done].
Qed.

Lemma fetch_gene_missing_key a key w :
  missing_key a key →
  fetch_gene net cr a w = (w, Raised (KeyError key)).
Proof.
  intros (entries & -> & [[Hg ->]|(gene & Hg & [[Hs ->]|([s Hs] & Hh & ->)])]);
    unfold fetch_gene, bind; cbn [subscript]; rewrite Hg; [done |..];
    cbn [ret subscript]; rewrite Hs; [done |].
  cbn [ret subscript]. by rewrite Hh.
Qed.

Lemma fetch_gene_bad_synonyms a g w r entries syn :
  association_of a g →
  net (requests_before w) (gene_url g) = Answer r →
  is_error_status (status_code r) = false →
  json r = Some (PDict entries) →
  dict_lookup "synonyms" entries = Some (PList syn) →
  all_strings syn = None →
  fetch_gene net cr a w = (emit (EvGet (gene_url g)) w, Raised TypeError).
Proof.
  intros (aentries & gene & -> & Hgene & Hsym & Hhref) Hnet Hst Hjson Hsyn
    Hall.
  unfold fetch_gene, bind. cbn [subscript]. rewrite Hgene.
  cbn [ret subscript]. rewrite Hsym. cbn [ret subscript]. rewrite Hhref.
  cbn [ret py_str]. rewrite requests_get_run. fold (gene_url g).
  rewrite Hnet, raise_for_status_run, Hst. unfold response_json.
  rewrite Hjson. cbn [ret dict_get]. rewrite Hsyn. cbn [ret].
  destruct syn as [|s syn]; [done |]. cbn [truthy].
  unfold str_join, bind. cbn [py_iter ret]. by rewrite Hall.
Qed.

End FetchStops.

(** X5: when the gene set and the detail pages are served, the requests
    of a run are exactly the gene-set request followed by one detail
    request per association, in order, and all of them come before
    anything else the run does, whether or not the output can then be
    opened. *)
Theorem fetch_request_sequence net cr output_csv w items genes :
  served net w items genes [] →
  let run := fetch_chromatin_remodelers_and_synonyms net cr output_csv w in
  ∃ tail,
    log run.1 =
      log w ++ map EvGet (chromatin_remodelers_url :: map gene_url genes)
            ++ tail ∧
    gets tail = [] ∧
    List.length (chromatin_remodelers_url :: map gene_url genes) =
      S (List.length items).
Proof.
  intros (r & entries & Hnet & Hst & Hjson & Hassoc & Hall & Hgenes) run.
  subst run. rewrite app_nil_r in Hassoc. rewrite fetch_unfold.
  rewrite (collect_chromatin_data_ok net cr w r entries items genes);
    [| done | done | done | by left | done | done].
  pose proof (Forall2_length _ _ _ Hall) as Hlen.
  destruct (open_error _ _); cbn [fst log emit]; eexists;
    (split; [by rewrite <- app_assoc |]); cbn;
    by rewrite length_map, Hlen.
Qed.

Lemma sample_api_served :
  served sample_api sample_world (map association_json sample_genes)
    sample_genes [].
Proof.
  eexists _, _. split; [reflexivity |]. split; [reflexivity |].
  split; [reflexivity |]. split; [reflexivity |]. split.
  - repeat constructor; eexists _, _; repeat split; reflexivity.
  - intros [|[|[|i]]] g [= <-];
      (eexists; split; [vm_compute; reflexivity |]);
      (split; [reflexivity |]); eexists; (split; [reflexivity |]);
      left; reflexivity.
Defined.

Lemma fetch_request_sequence_witness :
  let run := fetch_chromatin_remodelers_and_synonyms sample_api sample_repr
               sample_csv sample_world in
  ∃ tail,
    log run.1 =
      log sample_world ++
      map EvGet (chromatin_remodelers_url :: map gene_url sample_genes)
      ++ tail ∧
    gets tail = [] ∧
    List.length (chromatin_remodelers_url :: map gene_url sample_genes) =
      S (List.length (map association_json sample_genes)).
Proof.
  exact (fetch_request_sequence sample_api sample_repr sample_csv sample_world
           (map association_json sample_genes) sample_genes
           sample_api_served).
Defined.

(** X6: there is no per-gene isolation.  When the detail request of one
    gene fails, by a network error or a 4xx or 5xx status, the genes
    before it have been fetched, the associations after it are never
    requested, nothing is written and the error is reported. *)
Theorem fetch_stops_at_failed_request net cr output_csv w items genes
    a post g e :
  served net w items genes (a :: post) →
  association_of a g →
  request_error
    (net (requests_before w + 1 + List.length genes)%nat (gene_url g))
    = Some e →
  fetch_chromatin_remodelers_and_synonyms net cr output_csv w =
    (mkWorld (fs w)
       (log w ++
        map EvGet (chromatin_remodelers_url :: map gene_url genes
                   ++ [gene_url g]) ++
        [EvPrint (error_report e)]),
     Normal tt).
Proof.
  intros Hs Ha He.
  rewrite (fetch_stops net cr output_csv w items genes a post
             (emit (EvGet (gene_url g))
                (after_requests w
                   (chromatin_remodelers_url :: map gene_url genes))) e Hs).
  - unfold emit, after_requests. cbn [fs log map]. rewrite map_app.
    cbn [map]. by rewrite <- ?app_assoc, <- ?app_comm_cons, <- ?app_assoc.
  - apply fetch_gene_request_fails; [done |].
    rewrite requests_before_after. cbn [List.length].
    rewrite length_map.
    by replace (requests_before w + S (List.length genes))%nat
      with (requests_before w + 1 + List.length genes)%nat by lia.
Qed.

Lemma flaky_api_served :
  served flaky_api sample_world [association_json gene_ARID1A] [gene_ARID1A]
    [association_json gene_SMARCA4; association_json gene_CHD4].
Proof.
  eexists _, _. split; [reflexivity |]. split; [reflexivity |].
  split; [reflexivity |]. split; [reflexivity |]. split.
  - repeat constructor; eexists _, _; repeat split; reflexivity.
  - intros [|i] g [= <-].
    eexists. split; [vm_compute; reflexivity |]. split; [reflexivity |].
    eexists. split; [reflexivity |]. left. reflexivity.
Defined.

Lemma fetch_stops_at_failed_request_witness :
  fetch_chromatin_remodelers_and_synonyms flaky_api sample_repr sample_csv
    sample_world =
    (mkWorld (fs sample_world)
       (log sample_world ++
        map EvGet (chromatin_remodelers_url :: map gene_url [gene_ARID1A]
                   ++ [gene_url gene_SMARCA4]) ++
        [EvPrint (error_report (HTTPError 503))]),
     Normal tt).
Proof.
  apply (fetch_stops_at_failed_request flaky_api sample_repr sample_csv
           sample_world [association_json gene_ARID1A] [gene_ARID1A]
           (association_json gene_SMARCA4) [association_json gene_CHD4]
           gene_SMARCA4 (HTTPError 503) flaky_api_served).
  - eexists _, _. repeat split; reflexivity.
  - vm_compute. reflexivity.
Defined.

(** X7: an association that lacks the [gene] key, or whose gene lacks
    [symbol] or [href], raises a [KeyError] before any request is made
    for it; the run ends there with the error reported and nothing
    written. *)
Theorem fetch_stops_at_missing_key net cr output_csv w items genes
    a post key :
  served net w items genes (a :: post) →
  missing_key a key →
  fetch_chromatin_remodelers_and_synonyms net cr output_csv w =
    (mkWorld (fs w)
       (log w ++
        map EvGet (chromatin_remodelers_url :: map gene_url genes) ++
        [EvPrint (MsgOtherError (KeyError key))]),
     Normal tt).
Proof.
  intros Hs Ha.
  rewrite (fetch_stops net cr output_csv w items genes a post
             (after_requests w
                (chromatin_remodelers_url :: map gene_url genes))
             (KeyError key) Hs).
  - unfold emit, after_requests. cbn [fs log]. by rewrite <- app_assoc.
  - by apply fetch_gene_missing_key.
Qed.

Lemma broken_api_served :
  served broken_api sample_world [association_json gene_ARID1A] [gene_ARID1A]
    [nameless_association; association_json gene_CHD4].
Proof.
  eexists _, _. split; [reflexivity |]. split; [reflexivity |].
  split; [reflexivity |]. split; [reflexivity |]. split.
  - repeat constructor; eexists _, _; repeat split; reflexivity.
  - intros [|i] g [= <-].
    eexists. split; [vm_compute; reflexivity |]. split; [reflexivity |].
    eexists. split; [reflexivity |]. left. reflexivity.
Defined.

Lemma fetch_stops_at_missing_key_witness :
  fetch_chromatin_remodelers_and_synonyms broken_api sample_repr sample_csv
    sample_world =
    (mkWorld (fs sample_world)
       (log sample_world ++
        map EvGet (chromatin_remodelers_url :: map gene_url [gene_ARID1A]) ++
        [EvPrint (MsgOtherError (KeyError "gene"))]),
     Normal tt).
Proof.
  apply (fetch_stops_at_missing_key broken_api sample_repr sample_csv
           sample_world [association_json gene_ARID1A] [gene_ARID1A]
           nameless_association [association_json gene_CHD4] "gene"
           broken_api_served).
  eexists. split; [reflexivity |]. left. split; reflexivity.
Defined.

(** X8: a synonym list that holds anything but strings makes
    [", ".join] raise a [TypeError]; the run ends there, after the detail
    request of that gene, with the error reported and nothing written. *)
Theorem fetch_stops_at_bad_synonyms net cr output_csv w items genes
    a post g r entries syn :
  served net w items genes (a :: post) →
  association_of a g →
  net (requests_before w + 1 + List.length genes)%nat (gene_url g)
    = Answer r →
  is_error_status (status_code r) = false →
  json r = Some (PDict entries) →
  dict_lookup "synonyms" entries = Some (PList syn) →
  all_strings syn = None →
  fetch_chromatin_remodelers_and_synonyms net cr output_csv w =
    (mkWorld (fs w)
       (log w ++
        map EvGet (chromatin_remodelers_url :: map gene_url genes
                   ++ [gene_url g]) ++
        [EvPrint (MsgOtherError TypeError)]),
     Normal tt).
Proof.
  intros Hs Ha Hnet Hst Hjson Hsyn Hall.
  rewrite (fetch_stops net cr output_csv w items genes a post
             (emit (EvGet (gene_url g))
                (after_requests w
                   (chromatin_remodelers_url :: map gene_url genes)))
             TypeError Hs).
  - unfold emit, after_requests. cbn [fs log map]. rewrite map_app.
    cbn [map]. by rewrite <- ?app_assoc, <- ?app_comm_cons, <- ?app_assoc.
  - apply (fetch_gene_bad_synonyms net cr a g _ r entries syn); try done.
    rewrite requests_before_after. cbn [List.length]. rewrite length_map.
    by replace (requests_before w + S (List.length genes))%nat
      with (requests_before w + 1 + List.length genes)%nat by lia.
Qed.

Lemma null_synonym_api_served :
  served null_synonym_api sample_world [association_json gene_ARID1A]
    [gene_ARID1A]
    [association_json gene_SMARCA4; association_json gene_CHD4].
Proof.
  eexists _, _. split; [reflexivity |]. split; [reflexivity |].
  split; [reflexivity |]. split; [reflexivity |]. split.
  - repeat constructor; eexists _, _; repeat split; reflexivity.
  - intros [|i] g [= <-].
    eexists. split; [vm_compute; reflexivity |]. split; [reflexivity |].
    eexists. split; [reflexivity |]. left. reflexivity.
Defined.

Lemma fetch_stops_at_bad_synonyms_witness :
  fetch_chromatin_remodelers_and_synonyms null_synonym_api sample_repr
    sample_csv sample_world =
    (mkWorld (fs sample_world)
       (log sample_world ++
        map EvGet (chromatin_remodelers_url :: map gene_url [gene_ARID1A]
                   ++ [gene_url gene_SMARCA4]) ++
        [EvPrint (MsgOtherError TypeError)]),
     Normal tt).
Proof.
  apply (fetch_stops_at_bad_synonyms null_synonym_api sample_repr sample_csv
           sample_world [association_json gene_ARID1A] [gene_ARID1A]
           (association_json gene_SMARCA4) [association_json gene_CHD4]
           gene_SMARCA4
           (mkResponse 200 []
              (Some (PDict [("synonyms", PList [PStr "BRG1"; PNone])])))
           [("synonyms", PList [PStr "BRG1"; PNone])]
           [PStr "BRG1"; PNone] null_synonym_api_served).
  - eexists _, _. repeat split; reflexivity.
  - vm_compute. reflexivity.
  - reflexivity.
  - reflexivity.
  - reflexivity.
  - reflexivity.
Defined.

(** X9: a gene-set body that decodes to anything but a JSON object has
    no [get] method: the [AttributeError] is reported by the second
    [except] clause after the single request, and nothing is written. *)
Theorem fetch_rejects_non_object net cr output_csv w r v :
  net (requests_before w) chromatin_remodelers_url = Answer r →
  is_error_status (status_code r) = false →
  json r = Some v →
  (∀ entries, v ≠ PDict entries) →
  fetch_chromatin_remodelers_and_synonyms net cr output_csv w =
    (mkWorld (fs w)
       (log w ++ [EvGet chromatin_remodelers_url;
                  EvPrint (MsgOtherError AttributeError)]),
     Normal tt).
Proof.
  intros Hnet Hst Hjson Hv. rewrite fetch_unfold.
  unfold collect_chromatin_data. unfold bind at 1.
  rewrite requests_get_run, Hnet. unfold bind at 1.
  rewrite raise_for_status_run, Hst. unfold bind at 1.
  unfold response_json. rewrite Hjson. cbn [ret]. unfold bind at 1.
  destruct v; try (unfold emit; cbn; by rewrite <- app_assoc).
  by destruct (Hv entries).
Qed.

Lemma fetch_rejects_non_object_witness :
  fetch_chromatin_remodelers_and_synonyms
    (net_always 200 "[]" (Some (PList []))) sample_repr sample_csv
    sample_world =
    (mkWorld (fs sample_world)
       (log sample_world ++ [EvGet chromatin_remodelers_url;
                             EvPrint (MsgOtherError AttributeError)]),
     Normal tt).
Proof.
  apply (fetch_rejects_non_object (net_always 200 "[]" (Some (PList [])))
           sample_repr sample_csv sample_world
           (mkResponse 200 (list_byte_of_string "[]") (Some (PList [])))
           (PList [])); try reflexivity.
  intros entries. discriminate.
Defined.

(** X10: an [associations] field that is present but null (or a number
    or a boolean) is not replaced by the default: iterating over it
    raises a [TypeError], which is reported, and no CSV is written, not
    even the header. *)
Theorem fetch_rejects_null_associations net cr output_csv w r entries v :
  net (requests_before w) chromatin_remodelers_url = Answer r →
  is_error_status (status_code r) = false →
  json r = Some (PDict entries) →
  dict_lookup "associations" entries = Some v →
  match v with
  | PNone | PBool _ | PInt _ | PFloat _ => True
  | _ => False
  end →
  fetch_chromatin_remodelers_and_synonyms net cr output_csv w =
    (mkWorld (fs w)
       (log w ++ [EvGet chromatin_remodelers_url;
                  EvPrint (MsgOtherError TypeError)]),
     Normal tt).
Proof.
  intros Hnet Hst Hjson Hassoc Hv. rewrite fetch_unfold.
  unfold collect_chromatin_data. unfold bind at 1.
  rewrite requests_get_run, Hnet. unfold bind at 1.
  rewrite raise_for_status_run, Hst. unfold bind at 1.
  unfold response_json. rewrite Hjson. cbn [ret]. unfold bind at 1.
  cbn [dict_get]. rewrite Hassoc. cbn [ret]. unfold bind at 1.
  destruct v; try done; unfold emit; cbn; by rewrite <- app_assoc.
Qed.

Lemma fetch_rejects_null_associations_witness :
  fetch_chromatin_remodelers_and_synonyms
    (net_always 200 "" (Some (PDict [("associations", PNone)]))) sample_repr
    sample_csv sample_world =
    (mkWorld (fs sample_world)
       (log sample_world ++ [EvGet chromatin_remodelers_url;
                             EvPrint (MsgOtherError TypeError)]),
     Normal tt).
Proof.
  apply (fetch_rejects_null_associations
           (net_always 200 "" (Some (PDict [("associations", PNone)])))
           sample_repr sample_csv sample_world
           (mkResponse 200 [] (Some (PDict [("associations", PNone)])))
           [("associations", PNone)] PNone).
  - reflexivity.
  - reflexivity.
  - reflexivity.
  - reflexivity.
  - exact I.
Defined.

(** ** Where the requests go *)

Section FetchHost.
Variable net : nat → string → http_outcome.
Variable cr : pyvalue → string.

(** Runs a step that leaves the world alone; an exception ends the
    goal with no request. *)
Ltac quiet_step lem v :=
  match goal with
  | |- context [match ?m ?w with _ => _ end] =>
      let E := fresh "E" in
      let P := fresh "P" in
      let w1 := fresh "w" in
      pose proof (lem w) as P;
      destruct (m w) as [w1 [v|?]] eqn:E; cbn [fst] in P; subst w1
  end.

Lemma fetch_gene_host a w :
  (fetch_gene net cr a w).1 = w ∨
  ∃ s, (fetch_gene net cr a w).1 = emit (EvGet (base_url +:+ s)) w.
Proof.
  unfold fetch_gene, bind.
  quiet_step (subscript_pure a "gene") gene; [| by left].
  quiet_step (subscript_pure gene "symbol") symbol; [| by left].
  quiet_step (subscript_pure a "gene") gene'; [| by left].
  quiet_step (subscript_pure gene' "href") href; [| by left].
  rewrite requests_get_run. right. exists (py_str cr href).
  destruct (net _ _) as [reason|r]; [done |].
  rewrite raise_for_status_run. destruct (is_error_status _); [done |].
  quiet_step (response_json_pure r) data; [| done].
  quiet_step (dict_get_pure data "synonyms" (PList [])) syn; [| done].
  destruct (truthy syn); [| done].
  quiet_step (str_join_pure ", " syn) joined; done.
Qed.

Lemma for_append_host items acc w :
  ∃ urls,
    log (for_append items (fetch_gene net cr) acc w).1 =
      log w ++ map EvGet urls ∧
    Forall (λ u, ∃ s, u = base_url +:+ s) urls.
Proof.
  revert acc w. induction items as [|a items IH]; intros acc w.
  { exists []. cbn. by rewrite app_nil_r. }
  cbn [for_append]. unfold bind.
  destruct (fetch_gene net cr a w) as [w1 r1] eqn:E.
  pose proof (fetch_gene_host a w) as H. rewrite E in H. cbn [fst] in H.
  destruct r1 as [row|e].
  - destruct (IH (acc ++ [row]) w1) as (urls & Hlog & Hall).
    destruct H as [->|[s ->]].
    + by exists urls.
    + exists ((base_url +:+ s) :: urls). split.
      * rewrite Hlog. cbn. by rewrite <- app_assoc.
      * constructor; [by exists s | done].
  - destruct H as [->|[s ->]].
    + exists []. cbn. by rewrite app_nil_r.
    + exists [base_url +:+ s]. split; [done |]. constructor; [by exists s | done].
Qed.

End FetchHost.

(** X11: every request of the synonym fetch, in every run, goes to a URL
    that starts with the base URL of the Harmonizome service: the
    gene-set URL first, then the base URL followed by the [href] of the
    API's answer. *)
Theorem fetch_requests_stay_on_host net cr output_csv w :
  ∃ urls,
    gets (log (fetch_chromatin_remodelers_and_synonyms net cr output_csv w).1)
      = gets (log w) ++ chromatin_remodelers_url :: urls ∧
    Forall (λ u, ∃ s, u = base_url +:+ s) (chromatin_remodelers_url :: urls).
Proof.
  destruct (collect_chromatin_data net cr w) as [w1 r1] eqn:E.
  rewrite (fetch_gets net cr output_csv w w1 r1 E).
  assert (∃ urls, log w1 = log w ++ map EvGet (chromatin_remodelers_url :: urls)
                  ∧ Forall (λ u, ∃ s, u = base_url +:+ s) urls)
    as (urls & Hlog & Hall).
  { revert E. unfold collect_chromatin_data. unfold bind at 1.
    rewrite requests_get_run.
    destruct (net _ _) as [reason|r];
      [intros [= <- <-]; by exists [] |].
    unfold bind at 1. rewrite raise_for_status_run.
    destruct (is_error_status _); [intros [= <- <-]; by exists [] |].
    unfold bind.
    pose proof (response_json_pure r (emit (EvGet chromatin_remodelers_url) w))
      as P.
    destruct (response_json r _) as [w2 [data|e]]; cbn [fst] in P; subst w2;
      [| intros [= <- <-]; by exists []].
    pose proof (dict_get_pure data "associations" (PList [])
                  (emit (EvGet chromatin_remodelers_url) w)) as P.
    destruct (dict_get data _ _ _) as [w2 [assocs|e]]; cbn [fst] in P;
      subst w2; [| intros [= <- <-]; by exists []].
    pose proof (py_iter_pure assocs (emit (EvGet chromatin_remodelers_url) w))
      as P.
    destruct (py_iter assocs _) as [w2 [items|e]]; cbn [fst] in P; subst w2;
      [| intros [= <- <-]; by exists []].
    intros Hrun.
    destruct (for_append_host net cr items []
                (emit (EvGet chromatin_remodelers_url) w))
      as (urls & Hlog & Hall).
    rewrite Hrun in Hlog. cbn [fst] in Hlog. exists urls.
    split; [| done]. rewrite Hlog. cbn. by rewrite <- app_assoc. }
  exists urls. rewrite Hlog, gets_app, gets_map_EvGet. split; [done |].
  constructor; [| done]. by eexists.
Qed.

(** ** Directory creation *)

Lemma grows_keeps p m m' q n :
  grows p m m' → m !! q = Some n → m' !! q = Some n.
Proof. intros [_ H] Hq. destruct (H q) as [->|(? & _)]; congruence. Qed.

Lemma grows_no_file p m m' q :
  grows p m m' → (∀ c, m !! q ≠ Some (File c)) → ∀ c, m' !! q ≠ Some (File c).
Proof.
  intros [_ H] Hq c. destruct (H q) as [->|(_ & -> & _)]; [apply Hq | done].
Qed.

Lemma not_file_is_dir m p :
  path_exists m p = true → (∀ c, m !! p ≠ Some (File c)) → is_dir m p = true.
Proof.
  unfold path_exists, is_dir. destruct p as [|s p]; [done |].
  intros [n Hn]%bool_decide_eq_true Hf. rewrite Hn.
  destruct n as [c|]; [by destruct (Hf c) | done].
Qed.

(** [os.makedirs] succeeds as soon as no regular file sits on the way. *)
Lemma makedirs_rev_ok rp m :
  (∀ q, q `prefix_of` rev rp → ∀ c, m !! q ≠ Some (File c)) →
  ∃ m', makedirs_rev rp m = (m', None).
Proof.
  revert m. induction rp as [|tail rhead IH]; intros m Hfree; [by exists m |].
  cbn [makedirs_rev rev] in *.
  assert (rev rhead `prefix_of` rev rhead ++ [tail]) as Hpre
    by by apply prefix_app_r.
  set (heads := if negb (path_exists m (rev rhead)) then _ else _).
  assert (∃ m1, heads = (m1, None) ∧ grows (rev rhead) m m1 ∧
                is_dir m1 (rev rhead) = true) as (m1 & -> & G1 & D1).
  { subst heads. destruct (path_exists m (rev rhead)) eqn:Hex; cbn [negb].
    - exists m. split; [done |]. split; [apply grows_refl |].
      apply not_file_is_dir; [done |]. by apply Hfree.
    - destruct (IH m) as [m1 E].
      { intros q Hq. apply Hfree. by etrans. }
      rewrite E. exists m1. split; [done |].
      by apply makedirs_rev_spec in E as [G D]; split; [| apply D]. }
  assert (∀ c, m1 !! (rev rhead ++ [tail]) ≠ Some (File c)) as Hname.
  { eapply grows_no_file; [exact G1 |]. by apply Hfree. }
  unfold mkdir. destruct (path_exists m1 _) eqn:Hex.
  - rewrite (not_file_is_dir _ _ Hex Hname). by eexists.
  - rewrite parent_snoc, D1. by eexists.
Qed.

Lemma makedirs_ok p w :
  (∀ q, q `prefix_of` p → ∀ c, fs w !! q ≠ Some (File c)) →
  ∃ w', makedirs p w = (w', Normal tt) ∧ grows p (fs w) (fs w') ∧
        is_dir (fs w') p = true.
Proof.
  intros Hfree. destruct (makedirs_rev_ok (rev p) (fs w)) as [m' E].
  { by rewrite rev_involutive. }
  destruct (makedirs p w) as [w' res] eqn:Hrun.
  pose proof (makedirs_spec _ _ _ _ Hrun) as (_ & G & D).
  revert Hrun. unfold makedirs. rewrite E. intros [= <- <-].
  eexists. split; [done |]. split; [exact G | by apply D].
Qed.

Lemma create_directories_ok md w :
  (∀ d q c, d ∈ data_dirs md → q `prefix_of` d →
            fs w !! q ≠ Some (File c)) →
  ∃ w', create_directories (get_data_dir md) w = (w', Normal tt) ∧
        ∀ q n, fs w !! q = Some n → fs w' !! q = Some n.
Proof.
  intros Hfree. unfold create_directories, bind.
  destruct (makedirs_ok (unparsed_factor_data md) w) as (w1 & E1 & G1 & _).
  { intros q Hq c. apply (Hfree (unparsed_factor_data md)); [left | done]. }
  fold (unparsed_factor_data md). rewrite E1.
  destruct (makedirs_ok (unparsed_ontology_data md) w1) as (w2 & E2 & G2 & _).
  { intros q Hq. eapply grows_no_file; [exact G1 |]. intros c.
    apply (Hfree (unparsed_ontology_data md)); [right; left | done]. }
  fold (unparsed_ontology_data md). rewrite E2.
  destruct (makedirs_ok (parsed_factor_data md) w2) as (w3 & E3 & G3 & _).
  { intros q Hq. eapply grows_no_file; [exact G2 |].
    eapply grows_no_file; [exact G1 |]. intros c.
    apply (Hfree (parsed_factor_data md)); [right; right; left | done]. }
  fold (parsed_factor_data md). rewrite E3.
  destruct (makedirs_ok (parsed_ontology_data md) w3) as (w4 & E4 & G4 & _).
  { intros q Hq. eapply grows_no_file; [exact G3 |].
    eapply grows_no_file; [exact G2 |].
    eapply grows_no_file; [exact G1 |]. intros c.
    apply (Hfree (parsed_ontology_data md)); [| done].
    right; right; right; left. }
  fold (parsed_ontology_data md). rewrite E4. exists w4. split; [done |].
  intros q n Hq. eapply grows_keeps; [exact G4 |].
  eapply grows_keeps; [exact G3 |]. eapply grows_keeps; [exact G2 |].
  by eapply grows_keeps.
Qed.

(** X12: the four [os.makedirs] calls succeed on every file system where
    no regular file sits at a data directory or at one of its
    ancestors, whether the directories and their parents exist or not;
    afterwards the four directories exist, every earlier entry is still
    there, and a well-formed tree stays well formed. *)
Theorem create_directories_succeeds md w :
  (∀ d q c, d ∈ data_dirs md → q `prefix_of` d →
            fs w !! q ≠ Some (File c)) →
  ∃ w',
    create_directories (get_data_dir md) w = (w', Normal tt) ∧
    Forall (λ d, is_dir (fs w') d = true) (data_dirs md) ∧
    (∀ q n, fs w !! q = Some n → fs w' !! q = Some n) ∧
    (fs_wf (fs w) → fs_wf (fs w')).
Proof.
  intros Hfree. destruct (create_directories_ok md w Hfree) as (w' & Hrun & Hk).
  exists w'. split; [done |].
  apply create_directories_spec in Hrun as (_ & Hwf & _ & _ & Hd).
  by split; [| split].
Qed.

(** A fresh machine: nothing exists, not even the package directory. *)
Lemma create_directories_succeeds_witness :
  ∃ w',
    create_directories (get_data_dir ["srv"; "pkg"]) (mkWorld ∅ [])
      = (w', Normal tt) ∧
    Forall (λ d, is_dir (fs w') d = true) (data_dirs ["srv"; "pkg"]) ∧
    (∀ q n, fs (mkWorld ∅ []) !! q = Some n → fs w' !! q = Some n) ∧
    (fs_wf (fs (mkWorld ∅ [])) → fs_wf (fs w')).
Proof.
  apply (create_directories_succeeds ["srv"; "pkg"] (mkWorld ∅ [])).
  intros d q c _ _. cbn. by rewrite lookup_empty.
Defined.

(** ** The installer as a whole *)

(** X13: on a file system where no regular file sits at a data directory
    or one of its ancestors and no directory sits at a download
    destination, the installer returns normally whatever the network
    does, and the four data directories exist afterwards. *)
Theorem install_data_returns_normally net cr md w :
  (∀ d q c, d ∈ data_dirs md → q `prefix_of` d →
            fs w !! q ≠ Some (File c)) →
  Forall (λ p, is_dir (fs w) p = false) (download_destinations md) →
  ∃ w', install_data net cr md w = (w', Normal tt) ∧
        Forall (λ d, is_dir (fs w') d = true) (data_dirs md).
Proof.
  intros Hfree Hdest.
  destruct (create_directories_ok md (emit (EvPrint MsgInstalling) w) Hfree)
    as (wd & Hdirs & _).
  pose proof (create_directories_spec _ _ _ Hdirs) as (_ & _ & _ & Nd & Dd).
  assert (Forall (λ p, is_dir (fs wd) p = false) (download_destinations md))
    as Fd.
  { apply Forall_forall. intros p Hp. rewrite Nd.
    - by eapply Forall_forall in Hdest.
    - by apply destination_not_prefix. }
  unfold install_data. unfold bind at 1. cbn [print].
  unfold bind at 1. cbv zeta. rewrite Hdirs. unfold bind at 1.
  destruct (for_each _ _ wd) as [w2 r2] eqn:Ea.
  apply (for_each_download_spec net) in Ea as (-> & _ & _ & _ & _ & Sa);
    [| by apply destinations_open].
  unfold bind at 1.
  destruct (fetch_chromatin_remodelers_and_synonyms _ _ _ w2)
    as [w3 r3] eqn:Eb.
  apply fetch_spec in Eb as (-> & _ & _ & _ & _ & _ & Sb).
  pose proof (file_step_trans _ _ _ Sa Sb) as Sab.
  destruct (for_each _ _ w3) as [w4 r4] eqn:Ec.
  apply (for_each_download_spec net) in Ec as (-> & _ & _ & _ & _ & Sc);
    [| apply destinations_open; by eapply file_step_Forall].
  exists w4. split; [done |].
  eapply file_step_Forall; [| exact Dd]. by eapply file_step_trans.
Qed.

Lemma install_data_returns_normally_witness :
  ∃ w', install_data net_down sample_repr ["srv"; "pkg"] (mkWorld ∅ [])
          = (w', Normal tt) ∧
        Forall (λ d, is_dir (fs w') d = true) (data_dirs ["srv"; "pkg"]).
Proof.
  apply (install_data_returns_normally net_down sample_repr ["srv"; "pkg"]
           (mkWorld ∅ [])).
  - intros d q c _ _. cbn. by rewrite lookup_empty.
  - vm_compute. repeat constructor.
Defined.

(** ** What a run may touch *)

Section Touched.
Variable md : path.
Variable q : path.

Lemma touched_refl m : touched md m m q.
Proof. by left. Qed.

Lemma touched_trans m m1 m2 :
  touched md m m1 q → touched md m1 m2 q → touched md m m2 q.
Proof.
  unfold touched.
  intros [E1|[(N1 & D1 & P1)|(F1 & data1 & H1)]]
         [E2|[(N2 & D2 & P2)|(F2 & data2 & H2)]].
  - left. congruence.
  - right; left. split; [congruence | done].
  - right; right. eauto.
  - right; left. split; [done |]. split; [congruence | done].
  - congruence.
  - right; right. eauto.
  - right; right. split; [done |]. exists data1. congruence.
  - congruence.
  - right; right. eauto.
Qed.

Lemma touched_grows d m m' :
  d ∈ data_dirs md → grows d m m' → touched md m m' q.
Proof.
  intros Hd [_ H]. destruct (H q) as [E|(N & D & P)]; [by left |].
  right; left. split; [done |]. split; [done |]. by exists d.
Qed.

Lemma touched_write p data m :
  p ∈ installer_files md → touched md m (<[p := File data]> m) q.
Proof.
  intros Hp. destruct (decide (p = q)) as [<-|Hne].
  - right; right. split; [done |]. exists data. apply lookup_insert_eq.
  - left. by apply lookup_insert_ne.
Qed.

(** Sequencing keeps the relation, whether or not the first part
    raises. *)
Lemma touched_bind {A B} (m : M A) (k : A → M B) w :
  touched md (fs w) (fs (m w).1) q →
  (∀ a w1, touched md (fs w1) (fs (k a w1).1) q) →
  touched md (fs w) (fs (bind m k w).1) q.
Proof.
  unfold bind. destruct (m w) as [w1 [a|e]]; cbn [fst]; intros H Hk; [| done].
  eapply touched_trans; [exact H | apply Hk].
Qed.

Lemma touched_for_each {A} (l : list A) (body : A → M unit) w :
  (∀ x w1, x ∈ l → touched md (fs w1) (fs (body x w1).1) q) →
  touched md (fs w) (fs (for_each l body w).1) q.
Proof.
  revert w. induction l as [|x l IH]; intros w Hbody; [apply touched_refl |].
  cbn [for_each]. apply touched_bind; [apply Hbody; left |].
  intros _ w1. apply IH. intros y w2 Hy. apply Hbody. by right.
Qed.

Lemma touched_makedirs d w :
  d ∈ data_dirs md → touched md (fs w) (fs (makedirs d w).1) q.
Proof.
  intros Hd. destruct (makedirs d w) as [w' res] eqn:E.
  apply makedirs_spec in E as (_ & G & _). by eapply touched_grows.
Qed.

Lemma touched_download net url folder filename w :
  folder // filename ∈ installer_files md →
  touched md (fs w) (fs (download_file net url folder filename w).1) q.
Proof.
  intros Hp. destruct (net (requests_before w) url) as [reason|r] eqn:Hnet.
  { rewrite (download_file_net_fail _ _ _ _ _ _ Hnet). apply touched_refl. }
  destruct (decide (status_code r = 200)) as [Hst|Hst].
  - rewrite (download_file_200 _ _ _ _ _ _ Hnet Hst).
    destruct (open_error _ _); [apply touched_refl |].
    by apply touched_write.
  - rewrite (download_file_not_200 _ _ _ _ _ _ Hnet Hst). apply touched_refl.
Qed.

Lemma touched_fetch net cr output_csv w :
  output_csv ∈ installer_files md →
  touched md (fs w)
    (fs (fetch_chromatin_remodelers_and_synonyms net cr output_csv w).1) q.
Proof.
  intros Hp. rewrite fetch_unfold.
  destruct (collect_chromatin_data net cr w) as [w1 r1] eqn:E.
  apply collect_chromatin_data_spec in E as (Hfs & _).
  destruct r1 as [rows|e]; [destruct (open_error _ _) |]; cbn [fst fs emit];
    rewrite Hfs; [apply touched_refl | by apply touched_write |
                  apply touched_refl].
Qed.

End Touched.

Lemma installer_files_eq md :
  installer_files md =
    [unparsed_factor_data md // "gene_info.gz";
     unparsed_factor_data md // "Homo_sapiens_TF.csv";
     unparsed_ontology_data md // "cellosaurus.txt";
     unparsed_ontology_data md // "efo.owl";
     unparsed_ontology_data md // "uberon-full.json";
     get_data_dir md // "parsed_factor_data/chromatin_remodelers.csv"].
Proof. reflexivity. Qed.

(** X14: a run of the installer, however it ends, changes the file
    system only in these ways: it creates missing directories at the
    data directories and their ancestors, and it writes files at its own
    six destinations.  Every other path keeps what it held, and nothing
    is ever deleted. *)
Theorem install_data_touches_only net cr md w q :
  let m' := fs (install_data net cr md w).1 in
  m' !! q = fs w !! q ∨
  (fs w !! q = None ∧ m' !! q = Some Dir ∧
   ∃ d, d ∈ data_dirs md ∧ q `prefix_of` d) ∨
  (q ∈ installer_files md ∧ ∃ data, m' !! q = Some (File data)).
Proof.
  cbv zeta. change (touched md (fs w) (fs (install_data net cr md w).1) q).
  unfold install_data. apply touched_bind; [apply touched_refl |].
  intros _ w0. cbv zeta. apply touched_bind.
  { unfold create_directories.
    apply touched_bind; [apply touched_makedirs; left |]. intros _ w1.
    apply touched_bind; [apply touched_makedirs; right; left |]. intros _ w2.
    apply touched_bind; [apply touched_makedirs; do 2 right; left |].
    intros _ w3. apply touched_makedirs. do 3 right. left. }
  intros _ w1. apply touched_bind.
  { apply touched_for_each. intros [url filename] w2 Hx.
    apply touched_download. rewrite installer_files_eq.
    cbn in Hx. rewrite !elem_of_cons in Hx.
    destruct Hx as [[= -> ->]|[[= -> ->]|Hx]];
      [left | right; left | by apply elem_of_nil in Hx]. }
  intros _ w2. apply touched_bind.
  { apply touched_fetch. rewrite installer_files_eq. do 5 right. left. }
  intros _ w3. apply touched_for_each. intros [url filename] w4 Hx.
  apply touched_download. rewrite installer_files_eq.
  cbn in Hx. rewrite !elem_of_cons in Hx.
  destruct Hx as [[= -> ->]|[[= -> ->]|[[= -> ->]|Hx]]];
    [do 2 right; left | do 3 right; left | do 4 right; left |
     by apply elem_of_nil in Hx].
Qed.

(** ** A regular file in the way of a data directory *)

Lemma makedirs_child p w :
  p ≠ [] → is_dir (fs w) (parent p) = true →
  ∃ w', log w' = log w ++ [EvMakedirs p] ∧ grows p (fs w) (fs w') ∧
    ((∀ c, fs w !! p ≠ Some (File c)) ∧ makedirs p w = (w', Normal tt) ∨
     (∃ c, fs w !! p = Some (File c)) ∧
     makedirs p w = (w', Raised (OSError FileExistsError))).
Proof.
  intros Hnil Hpar.
  destruct (makedirs p w) as [w' res] eqn:E.
  pose proof (makedirs_spec _ _ _ _ E) as (Hlog & G & _).
  exists w'. split; [done |]. split; [done |].
  revert E. unfold makedirs.
  destruct (rev p) as [|tail rhead] eqn:Hrev.
  { apply (f_equal (@rev string)) in Hrev. rewrite rev_involutive in Hrev.
    done. }
  assert (p = rev rhead ++ [tail]) as ->.
  { apply (f_equal (@rev string)) in Hrev. by rewrite rev_involutive in Hrev. }
  rewrite parent_snoc in Hpar. cbn [makedirs_rev].
  rewrite (is_dir_exists _ _ Hpar). cbn [negb]. unfold mkdir.
  destruct (path_exists (fs w) (rev rhead ++ [tail])) eqn:Hex.
  - destruct (is_dir (fs w) (rev rhead ++ [tail])) eqn:Hd; cbv beta iota.
    + intros [= <- <-]. left. split; [| done].
      apply is_dir_true in Hd as [Hd|Hd]; [by destruct (rev rhead) |].
      intros c. by rewrite Hd.
    + intros [= <- <-]. right. split; [| done].
      unfold path_exists in Hex. unfold is_dir in Hd.
      destruct (rev rhead ++ [tail]) as [|s l] eqn:Hp;
        [by destruct (rev rhead) |].
      apply bool_decide_eq_true in Hex as [n Hn]. rewrite Hn in Hd.
      destruct n as [c|]; [by exists c | done].
  - rewrite parent_snoc, Hpar. cbv beta iota. intros [= <- <-]. left.
    split; [| done].
    intros c. by rewrite (path_exists_false _ _ Hex).
Qed.

Lemma data_dirs_parent md d :
  d ∈ data_dirs md → d ≠ [] ∧ parent d = get_data_dir md.
Proof.
  rewrite data_dirs_eq, !elem_of_cons. intros H.
  change (get_data_dir md) with (md ++ ["data"]).
  repeat (destruct H as [->|H];
          [split; [by destruct (md ++ ["data"]) | apply parent_snoc] |]).
  by apply elem_of_nil in H.
Qed.

Lemma create_directories_for_each md w :
  create_directories (get_data_dir md) w = for_each (data_dirs md) makedirs w.
Proof.
  unfold create_directories, data_dirs. cbn [for_each]. unfold bind.
  fold (unparsed_factor_data md) (unparsed_ontology_data md)
    (parsed_factor_data md) (parsed_ontology_data md).
  destruct (makedirs (unparsed_factor_data md) w) as [w1 [[]|e]]; [| done].
  destruct (makedirs (unparsed_ontology_data md) w1) as [w2 [[]|e]]; [| done].
  destruct (makedirs (parsed_factor_data md) w2) as [w3 [[]|e]]; [| done].
  by destruct (makedirs (parsed_ontology_data md) w3) as [w4 [[]|e]].
Qed.

Lemma gets_map_EvMakedirs ds : gets (map EvMakedirs ds) = [].
Proof. by induction ds. Qed.

Lemma writes_map_EvMakedirs ds : writes (map EvMakedirs ds) = [].
Proof. by induction ds. Qed.

Lemma for_each_makedirs_blocked (dirs : list path) pd w d c :
  (∀ x, x ∈ dirs → x ≠ [] ∧ parent x = pd) →
  is_dir (fs w) pd = true →
  d ∈ dirs → fs w !! d = Some (File c) →
  ∃ w' ds,
    for_each dirs makedirs w = (w', Raised (OSError FileExistsError)) ∧
    log w' = log w ++ map EvMakedirs ds ∧
    ∀ q n, fs w !! q = Some n → fs w' !! q = Some n.
Proof.
  revert w. induction dirs as [|x dirs IH]; intros w Hdirs Hpd Hd Hfile.
  { by apply elem_of_nil in Hd. }
  destruct (Hdirs x ltac:(left)) as [Hnil Hpar].
  destruct (makedirs_child x w Hnil) as (w1 & Hlog & G & Hres).
  { by rewrite Hpar. }
  cbn [for_each]. unfold bind.
  destruct Hres as [[Hfree ->]|[_ ->]].
  - apply elem_of_cons in Hd as [->|Hd]; [by destruct (Hfree c) |].
    destruct (IH w1) as (w' & ds & Hrun & Hlog' & Hkeep).
    + intros y Hy. apply Hdirs. by right.
    + by eapply grows_is_dir.
    + done.
    + by eapply grows_keeps.
    + exists w', (x :: ds). split; [done |]. split.
      * rewrite Hlog', Hlog. cbn. by rewrite <- app_assoc.
      * intros q n Hq. apply Hkeep. by eapply grows_keeps.
  - exists w1, [x]. split; [done |]. split; [done |].
    intros q n Hq. by eapply grows_keeps.
Qed.

(** X15: [exist_ok=True] does not cover a regular file.  When a regular
    file has the name of one of the four data directories, the installer
    ends with [FileExistsError] before it issues a single request or
    writes anything; what the file system held is still there. *)
Theorem install_data_blocked_by_file net cr md w d c :
  fs_wf (fs w) →
  d ∈ data_dirs md →
  fs w !! d = Some (File c) →
  ∃ w', install_data net cr md w = (w', Raised (OSError FileExistsError)) ∧
        gets (log w') = gets (log w) ∧
        writes (log w') = writes (log w) ∧
        ∀ q n, fs w !! q = Some n → fs w' !! q = Some n.
Proof.
  intros Hwf Hd Hfile.
  destruct (data_dirs_parent md d Hd) as [_ Hpar].
  apply Hwf in Hfile as Hparent. destruct Hparent as [_ Hparent].
  rewrite Hpar in Hparent.
  destruct (for_each_makedirs_blocked (data_dirs md) (get_data_dir md)
              (emit (EvPrint MsgInstalling) w) d c)
    as (w' & ds & Hrun & Hlog & Hkeep); try done.
  { intros x. apply data_dirs_parent. }
  unfold install_data. unfold bind at 1. cbn [print]. unfold bind at 1.
  cbv zeta. rewrite create_directories_for_each, Hrun.
  exists w'. split; [done |]. rewrite Hlog. cbn [log emit].
  rewrite !gets_app, !writes_app, gets_map_EvMakedirs, writes_map_EvMakedirs.
  cbn. by rewrite !app_nil_r.
Qed.

Lemma install_data_blocked_by_file_witness :
  ∃ w', install_data (net_always 200 "data" None) sample_repr ["srv"; "pkg"]
          (mkWorld file_in_the_way_fs [])
          = (w', Raised (OSError FileExistsError)) ∧
        gets (log w') = gets (log (mkWorld file_in_the_way_fs [])) ∧
        writes (log w') = writes (log (mkWorld file_in_the_way_fs [])) ∧
        ∀ q n, fs (mkWorld file_in_the_way_fs []) !! q = Some n →
               fs w' !! q = Some n.
Proof.
  apply (install_data_blocked_by_file (net_always 200 "data" None) sample_repr
           ["srv"; "pkg"] (mkWorld file_in_the_way_fs [])
           (parsed_factor_data ["srv"; "pkg"])
           (list_byte_of_string "not a directory")).
  - unfold fs_wf. apply (bool_decide_unpack _). vm_compute. exact I.
  - do 2 right. left.
  - reflexivity.
Defined.

(** ** The CSV text determines the records *)

Lemma append_assoc (s t u : string) : (s +:+ t) +:+ u = s +:+ t +:+ u.
Proof.
  induction s as [|c s IH]; [done |]. by rewrite !append_cons, IH.
Qed.

Lemma append_empty_l (s : string) : "" +:+ s = s.
Proof. done. Qed.

Lemma read_raw_app a rest :
  needs_quotes a = false → field_end rest →
  read_raw (a +:+ rest) = (a, rest).
Proof.
  intros Ha Hrest. induction a as [|c a IH].
  - change ("" +:+ rest) with rest. destruct rest as [|c r]; [done |].
    cbn. by destruct Hrest as [-> _].
  - cbn in Ha. apply orb_false_iff in Ha as [Hc Ha].
    rewrite append_cons. cbn [read_raw]. by rewrite Hc, (IH Ha).
Qed.

Lemma read_quoted_app a rest :
  field_end rest →
  read_quoted (double_quotes a +:+ String dquote rest) = Some (a, rest).
Proof.
  intros Hrest. induction a as [|c a IH].
  - change (double_quotes "" +:+ String dquote rest)
      with (String dquote rest).
    cbn. destruct rest as [|c r]; [done |]. by destruct Hrest as [_ ->].
  - cbn [double_quotes]. destruct (Ascii.eqb c dquote) eqn:Hc.
    + apply Ascii.eqb_eq in Hc as ->. rewrite !append_cons.
      cbn [read_quoted]. rewrite Ascii.eqb_refl.
      change (Ascii.eqb dquote dquote) with true. cbv iota. by rewrite IH.
    + rewrite append_cons. cbn [read_quoted]. by rewrite Hc, IH.
Qed.

Lemma read_field_csv_field a rest :
  field_end rest → read_field (csv_field a +:+ rest) = Some (a, rest).
Proof.
  intros Hrest. unfold csv_field. destruct (needs_quotes a) eqn:Ha.
  - rewrite append_cons, append_assoc. cbn [read_field].
    change (Ascii.eqb dquote dquote) with true. cbv iota.
    rewrite append_cons. by apply read_quoted_app.
  - destruct a as [|c a].
    + change ("" +:+ rest) with rest. destruct rest as [|c r]; [done |].
      destruct Hrest as [Hs Hq]. cbn. by rewrite Hq, Hs.
    + pose proof Ha as Ha'. cbn in Ha'.
      apply orb_false_iff in Ha' as [Hc _].
      assert (Ascii.eqb c dquote = false) as Hq.
      { destruct (Ascii.eqb c dquote) eqn:E; [| done].
        apply Ascii.eqb_eq in E as ->. done. }
      rewrite append_cons. cbn [read_field]. rewrite Hq.
      rewrite <- append_cons. by rewrite read_raw_app.
Qed.

Lemma csv_line_two_inj a b c d t1 t2 :
  csv_line [a; b] +:+ t1 = csv_line [c; d] +:+ t2 →
  a = c ∧ b = d ∧ t1 = t2.
Proof.
  rewrite !csv_line_two, !append_assoc. intros H.
  apply (f_equal read_field) in H.
  rewrite !read_field_csv_field in H by done.
  injection H as -> H. split; [done |].
  rewrite !append_empty_l in H.
  apply (f_equal read_field) in H.
  rewrite !read_field_csv_field in H by done.
  injection H as -> H. split; [done |]. exact H.
Qed.

Lemma csv_text_two_inj (l1 l2 : list (string * string)) :
  csv_text (map (λ p, [p.1; p.2]) l1) = csv_text (map (λ p, [p.1; p.2]) l2) →
  l1 = l2.
Proof.
  revert l2. induction l1 as [|[a b] l1 IH]; intros [|[c d] l2]; [done | | |].
  - cbn [map fst snd]. rewrite csv_text_cons, csv_line_two, !append_assoc.
    intros H. apply (f_equal read_field) in H.
    rewrite read_field_csv_field in H by done. done.
  - cbn [map fst snd]. rewrite csv_text_cons, csv_line_two, !append_assoc.
    intros H. apply (f_equal read_field) in H.
    rewrite read_field_csv_field in H by done. done.
  - cbn [map fst snd]. rewrite !csv_text_cons.
    intros (-> & -> & H)%csv_line_two_inj. by rewrite (IH l2 H).
Qed.

Lemma list_byte_of_string_inj s t :
  list_byte_of_string s = list_byte_of_string t → s = t.
Proof.
  intros H. apply (f_equal string_of_list_byte) in H.
  by rewrite !string_of_list_byte_of_string in H.
Qed.

(** X16: the file determines its records.  Two lists of rows for which
    the fetch would write the same bytes have the same two columns, row
    by row: the writer's quoting keeps commas, quotes and line breaks
    inside a symbol or a synonym column apart from the separators. *)
Theorem csv_bytes_injective cr rows1 rows2 :
  csv_bytes cr rows1 = csv_bytes cr rows2 →
  map (row_fields cr) rows1 = map (row_fields cr) rows2.
Proof.
  unfold csv_bytes. intros H%list_byte_of_string_inj.
  rewrite !csv_text_cons in H.
  apply (csv_line_two_inj "chromatin_remodeler" "synonyms"
           "chromatin_remodeler" "synonyms") in H as (_ & _ & H).
  assert (∀ rows, map (row_fields cr) rows =
                  map (λ p : string * string, [p.1; p.2])
                    (map (λ r, (csv_cell cr (chromatin_remodeler r),
                                synonyms r)) rows)) as Hmap.
  { intros rows. rewrite map_map. by apply map_ext. }
  rewrite !Hmap in H |- *. by rewrite (csv_text_two_inj _ _ H).
Qed.

Lemma csv_bytes_injective_witness :
  map (row_fields sample_repr) (map row_of sample_genes) =
  map (row_fields sample_repr) (map row_of sample_genes).
Proof.
  exact (csv_bytes_injective sample_repr (map row_of sample_genes)
           (map row_of sample_genes) eq_refl).
Defined.

(** ** A run in which every download succeeds *)

Lemma installer_files_NoDup md : NoDup (installer_files md).
Proof.
  apply (NoDup_fmap_1 (drop (List.length md))).
  assert (∀ a b c, ((md ++ [a]) ++ [b]) ++ [c] = md ++ [a; b; c]) as H3
    by (intros; by rewrite <- !app_assoc).
  assert (∀ a b c, (md ++ [a]) ++ [b; c] = md ++ [a; b; c]) as H3'
    by (intros; by rewrite <- !app_assoc).
  change (installer_files md) with
    [((md ++ ["data"]) ++ ["unparsed_factor_data"]) ++ ["gene_info.gz"];
     ((md ++ ["data"]) ++ ["unparsed_factor_data"]) ++ ["Homo_sapiens_TF.csv"];
     ((md ++ ["data"]) ++ ["unparsed_ontology_data"]) ++ ["cellosaurus.txt"];
     ((md ++ ["data"]) ++ ["unparsed_ontology_data"]) ++ ["efo.owl"];
     ((md ++ ["data"]) ++ ["unparsed_ontology_data"]) ++ ["uberon-full.json"];
     (md ++ ["data"]) ++ ["parsed_factor_data"; "chromatin_remodelers.csv"]].
  rewrite !H3, H3'. cbn [fmap list_fmap]. rewrite !drop_app_length.
  apply (bool_decide_unpack _). vm_compute. exact I.
Qed.

Section InstallFiles.
Variable net : nat → string → http_outcome.

Lemma download_file_other url folder filename w p :
  p ≠ folder // filename →
  fs (download_file net url folder filename w).1 !! p = fs w !! p.
Proof.
  intros Hp. destruct (net (requests_before w) url) as [reason|r] eqn:Hnet.
  { by rewrite (download_file_net_fail _ _ _ _ _ _ Hnet). }
  destruct (decide (status_code r = 200)) as [Hst|Hst].
  - rewrite (download_file_200 _ _ _ _ _ _ Hnet Hst).
    destruct (open_error _ _); [done |]. cbn. by rewrite lookup_insert_ne.
  - by rewrite (download_file_not_200 _ _ _ _ _ _ Hnet Hst).
Qed.

Lemma for_each_download_other folder (l : list (string * string)) w p :
  p ∉ map (λ uf, folder // uf.2) l →
  fs (for_each l (λ '(url, filename),
                    download_file net url folder filename) w).1 !! p
    = fs w !! p.
Proof.
  revert w. induction l as [|[url filename] l IH]; intros w Hp; [done |].
  cbn [map] in Hp. apply not_elem_of_cons in Hp as [Hne Hp].
  cbn [for_each]. unfold bind.
  pose proof (download_file_other url folder filename w p Hne) as H1.
  destruct (download_file net url folder filename w) as [w1 [[]|e]];
    cbn [fst] in *; [| done].
  by rewrite IH.
Qed.

Lemma download_file_served url folder filename w body :
  serves net url body →
  open_error (fs w) (folder // filename) = None →
  fs (download_file net url folder filename w).1 !! (folder // filename)
    = Some (File body).
Proof.
  intros Hs Hopen. destruct (Hs (requests_before w)) as (r & Hnet & Hst & <-).
  rewrite (download_file_200 _ _ _ _ _ _ Hnet Hst), Hopen. cbn.
  apply lookup_insert_eq.
Qed.

Lemma for_each_download_installs folder (l : list (string * string)) w
    url filename body :
  NoDup (map (λ uf, folder // uf.2) l) →
  (∀ uf, uf ∈ l → open_error (fs w) (folder // uf.2) = None) →
  (url, filename) ∈ l →
  (∀ uf, uf ∈ l → folder // uf.2 = folder // filename →
         serves net uf.1 body) →
  fs (for_each l (λ '(url, filename),
                    download_file net url folder filename) w).1
    !! (folder // filename) = Some (File body).
Proof.
  revert w. induction l as [|[u f] l IH]; intros w Hnd Hopen Hin Hs.
  { by apply elem_of_nil in Hin. }
  cbn [map] in Hnd. apply NoDup_cons in Hnd as [Hfresh Hnd].
  cbn [for_each]. unfold bind.
  destruct (download_file net u folder f w) as [w1 r1] eqn:E.
  pose proof (download_file_spec net u folder f w w1 r1 E)
    as (_ & _ & _ & _ & Hstep & Hok).
  rewrite (Hok (Hopen (u, f) ltac:(left))).
  assert (∀ uf, uf ∈ l → open_error (fs w1) (folder // uf.2) = None) as Hopen1.
  { intros uf Huf. destruct Hstep as [_ Hdirs].
    specialize (Hopen uf ltac:(by right)).
    apply open_error_None in Hopen as [? ?].
    apply open_error_None. by rewrite !Hdirs. }
  destruct (decide (folder // f = folder // filename)) as [Heq|Hne].
  - rewrite for_each_download_other by by rewrite <- Heq.
    replace w1 with (download_file net u folder f w).1 by by rewrite E.
    rewrite <- Heq. apply download_file_served.
    + apply (Hs (u, f)); [left | done].
    + apply (Hopen (u, f)). left.
  - apply IH; [done | done | |].
    + apply elem_of_cons in Hin as [[= -> ->]|Hin]; done.
    + intros uf Huf. apply Hs. by right.
Qed.

End InstallFiles.

Lemma installer_files_distinct md i j p q :
  installer_files md !! i = Some p → installer_files md !! j = Some q →
  i ≠ j → p ≠ q.
Proof.
  intros Hi Hj Hne ->. apply Hne.
  by eapply NoDup_lookup; [apply installer_files_NoDup | |].
Qed.

Lemma fetch_other net cr output_csv w p :
  p ≠ output_csv →
  fs (fetch_chromatin_remodelers_and_synonyms net cr output_csv w).1 !! p
    = fs w !! p.
Proof.
  intros Hp. rewrite fetch_unfold.
  destruct (collect_chromatin_data net cr w) as [w1 r1] eqn:E.
  apply collect_chromatin_data_spec in E as (Hfs & _).
  destruct r1 as [rows|e]; [destruct (open_error _ _) |]; cbn [fst fs emit];
    rewrite Hfs; [done | by rewrite lookup_insert_ne | done].
Qed.

Lemma download_plan_eq md :
  download_plan md =
    [("https://ftp.ncbi.nih.gov/gene/DATA/gene_info.gz",
      unparsed_factor_data md // "gene_info.gz");
     ("https://guolab.wchscu.cn/AnimalTFDB4_static/download/TF_list_final/Homo_sapiens_TF",
      unparsed_factor_data md // "Homo_sapiens_TF.csv");
     ("https://ftp.expasy.org/databases/cellosaurus/cellosaurus.txt",
      unparsed_ontology_data md // "cellosaurus.txt");
     ("https://github.com/EBISPOT/efo/releases/download/current/efo.owl",
      unparsed_ontology_data md // "efo.owl");
     ("http://purl.obolibrary.org/obo/uberon/uberon-full.json",
      unparsed_ontology_data md // "uberon-full.json")].
Proof. reflexivity. Qed.

Lemma factor_destinations_eq folder :
  map (λ uf : string * string, folder // uf.2)
    (zip factor_urls factor_filenames) =
    [folder // "gene_info.gz"; folder // "Homo_sapiens_TF.csv"].
Proof. reflexivity. Qed.

Lemma ontology_destinations_eq folder :
  map (λ uf : string * string, folder // uf.2)
    (zip ontology_urls ontology_filenames) =
    [folder // "cellosaurus.txt"; folder // "efo.owl";
     folder // "uberon-full.json"].
Proof. reflexivity. Qed.

Lemma factor_downloads_eq :
  zip factor_urls factor_filenames =
    [("https://ftp.ncbi.nih.gov/gene/DATA/gene_info.gz", "gene_info.gz");
     ("https://guolab.wchscu.cn/AnimalTFDB4_static/download/TF_list_final/Homo_sapiens_TF",
      "Homo_sapiens_TF.csv")].
Proof. reflexivity. Qed.

Lemma ontology_downloads_eq :
  zip ontology_urls ontology_filenames =
    [("https://ftp.expasy.org/databases/cellosaurus/cellosaurus.txt",
      "cellosaurus.txt");
     ("https://github.com/EBISPOT/efo/releases/download/current/efo.owl",
      "efo.owl");
     ("http://purl.obolibrary.org/obo/uberon/uberon-full.json",
      "uberon-full.json")].
Proof. reflexivity. Qed.

(** Closes a goal in which [H] equates two of the six files. *)
Ltac differ_at Hdist H i :=
  first [ by apply (Hdist i 0%nat _ _ eq_refl eq_refl) in H
        | by apply (Hdist i 1%nat _ _ eq_refl eq_refl) in H
        | by apply (Hdist i 2%nat _ _ eq_refl eq_refl) in H
        | by apply (Hdist i 3%nat _ _ eq_refl eq_refl) in H
        | by apply (Hdist i 4%nat _ _ eq_refl eq_refl) in H
        | by apply (Hdist i 5%nat _ _ eq_refl eq_refl) in H ].

Ltac differ Hdist H :=
  first [ differ_at Hdist H 0%nat | differ_at Hdist H 1%nat
        | differ_at Hdist H 2%nat | differ_at Hdist H 3%nat
        | differ_at Hdist H 4%nat | differ_at Hdist H 5%nat ].

(** X17: on a file system that lets the installer run (no regular file
    on the way to a data directory, no directory at a destination), when
    each of the five download URLs is answered with status 200 and its
    body, the installer returns normally and each of the five files
    holds the body of its URL, whatever the synonym fetch did in
    between. *)
Theorem install_data_installs_files net cr md w (body : string → list byte) :
  (∀ d q c, d ∈ data_dirs md → q `prefix_of` d →
            fs w !! q ≠ Some (File c)) →
  Forall (λ p, is_dir (fs w) p = false) (download_destinations md) →
  (∀ url dest, (url, dest) ∈ download_plan md → serves net url (body url)) →
  ∃ w', install_data net cr md w = (w', Normal tt) ∧
        ∀ url dest, (url, dest) ∈ download_plan md →
                    fs w' !! dest = Some (File (body url)).
Proof.
  intros Hfree Hdest Hserves.
  destruct (create_directories_ok md (emit (EvPrint MsgInstalling) w) Hfree)
    as (wd & Hdirs & _).
  pose proof (create_directories_spec _ _ _ Hdirs) as (_ & _ & _ & Nd & Dd).
  assert (Forall (λ p, is_dir (fs wd) p = false) (download_destinations md))
    as Fd.
  { apply Forall_forall. intros p Hp. rewrite Nd.
    - by eapply Forall_forall in Hdest.
    - by apply destination_not_prefix. }
  destruct (destinations_open md (fs wd) Dd Fd) as [Oa Oc].
  unfold install_data. unfold bind at 1. cbn [print].
  unfold bind at 1. cbv zeta. rewrite Hdirs. unfold bind at 1.
  fold (unparsed_factor_data md) (unparsed_ontology_data md)
    (chromatin_remodelers_csv md).
  destruct (for_each _ _ wd) as [w2 r2] eqn:Ea.
  pose proof (f_equal fst Ea) as E2. cbn [fst] in E2.
  apply (for_each_download_spec net) in Ea as (-> & _ & _ & _ & _ & Sa);
    [| done].
  unfold bind at 1.
  destruct (fetch_chromatin_remodelers_and_synonyms _ _ _ w2)
    as [w3 r3] eqn:Eb.
  pose proof (f_equal fst Eb) as E3. cbn [fst] in E3.
  apply fetch_spec in Eb as (-> & _ & _ & _ & _ & _ & Sb).
  pose proof (file_step_trans _ _ _ Sa Sb) as Sab.
  assert (∀ uf, uf ∈ zip ontology_urls ontology_filenames →
                open_error (fs w3) (unparsed_ontology_data md // uf.2) = None)
    as Oc3.
  { apply destinations_open; by eapply file_step_Forall. }
  destruct (for_each _ _ w3) as [w4 r4] eqn:Ec.
  pose proof (f_equal fst Ec) as E4. cbn [fst] in E4.
  apply (for_each_download_spec net) in Ec as (-> & _ & _ & _ & _ & _);
    [| done].
  exists w4. split; [done |]. intros url dest Hin.
  pose proof (installer_files_distinct md) as Hdist.
  pose proof (installer_files_NoDup md) as ND.
  unfold installer_files, download_destinations in ND.
  apply NoDup_app in ND as [ND _]. apply NoDup_app in ND as (NDa & _ & NDc).
  change (NoDup (map (λ uf : string * string, unparsed_factor_data md // uf.2)
                   (zip factor_urls factor_filenames))) in NDa.
  change (NoDup (map (λ uf : string * string,
                        unparsed_ontology_data md // uf.2)
                   (zip ontology_urls ontology_filenames))) in NDc.
  assert (∀ p, p ∈ map (pjoin (unparsed_factor_data md)) factor_filenames →
               fs w4 !! p = fs w2 !! p) as Keep.
  { intros p Hp. rewrite <- E4, for_each_download_other.
    - rewrite <- E3. apply fetch_other. intros ->.
      change (map (pjoin (unparsed_factor_data md)) factor_filenames) with
        [unparsed_factor_data md // "gene_info.gz";
         unparsed_factor_data md // "Homo_sapiens_TF.csv"] in Hp.
      rewrite !elem_of_cons in Hp.
      destruct Hp as [H|[H|H]]; [differ Hdist H | differ Hdist H |].
      by apply elem_of_nil in H.
    - rewrite ontology_destinations_eq, !elem_of_cons.
      change (map (pjoin (unparsed_factor_data md)) factor_filenames) with
        [unparsed_factor_data md // "gene_info.gz";
         unparsed_factor_data md // "Homo_sapiens_TF.csv"] in Hp.
      rewrite !elem_of_cons in Hp.
      destruct Hp as [->|[->|Hp]]; [| | by apply elem_of_nil in Hp];
        (intros [H|[H|[H|H]]];
         [differ Hdist H | differ Hdist H | differ Hdist H |
          by apply elem_of_nil in H]). }
  rewrite download_plan_eq, !elem_of_cons in Hin.
  destruct Hin as [[= -> ->]|[[= -> ->]|[[= -> ->]|[[= -> ->]|[[= -> ->]|Hin]]]]];
    [| | | | | by apply elem_of_nil in Hin].
  - rewrite Keep by left. rewrite <- E2.
    apply (for_each_download_installs net _ _ _
             "https://ftp.ncbi.nih.gov/gene/DATA/gene_info.gz" "gene_info.gz");
      [done | done | rewrite factor_downloads_eq; left |].
    intros uf Huf Heq. rewrite factor_downloads_eq, !elem_of_cons in Huf.
    destruct Huf as [->|[->|Huf]]; [| differ Hdist Heq |
                                    by apply elem_of_nil in Huf].
    apply (Hserves _ (unparsed_factor_data md // "gene_info.gz")).
    rewrite download_plan_eq. left.
  - rewrite Keep by (right; left). rewrite <- E2.
    apply (for_each_download_installs net _ _ _
             "https://guolab.wchscu.cn/AnimalTFDB4_static/download/TF_list_final/Homo_sapiens_TF"
             "Homo_sapiens_TF.csv");
      [done | done | rewrite factor_downloads_eq; right; left |].
    intros uf Huf Heq. rewrite factor_downloads_eq, !elem_of_cons in Huf.
    destruct Huf as [->|[->|Huf]]; [differ Hdist Heq | |
                                    by apply elem_of_nil in Huf].
    apply (Hserves _ (unparsed_factor_data md // "Homo_sapiens_TF.csv")).
    rewrite download_plan_eq. right; left.
  - rewrite <- E4.
    apply (for_each_download_installs net _ _ _
             "https://ftp.expasy.org/databases/cellosaurus/cellosaurus.txt"
             "cellosaurus.txt");
      [done | done | rewrite ontology_downloads_eq; left |].
    intros uf Huf Heq. rewrite ontology_downloads_eq, !elem_of_cons in Huf.
    destruct Huf as [->|[->|[->|Huf]]];
      [| differ Hdist Heq | differ Hdist Heq | by apply elem_of_nil in Huf].
    apply (Hserves _ (unparsed_ontology_data md // "cellosaurus.txt")).
    rewrite download_plan_eq. do 2 right; left.
  - rewrite <- E4.
    apply (for_each_download_installs net _ _ _
             "https://github.com/EBISPOT/efo/releases/download/current/efo.owl"
             "efo.owl");
      [done | done | rewrite ontology_downloads_eq; right; left |].
    intros uf Huf Heq. rewrite ontology_downloads_eq, !elem_of_cons in Huf.
    destruct Huf as [->|[->|[->|Huf]]];
      [differ Hdist Heq | | differ Hdist Heq | by apply elem_of_nil in Huf].
    apply (Hserves _ (unparsed_ontology_data md // "efo.owl")).
    rewrite download_plan_eq. do 3 right; left.
  - rewrite <- E4.
    apply (for_each_download_installs net _ _ _
             "http://purl.obolibrary.org/obo/uberon/uberon-full.json"
             "uberon-full.json");
      [done | done | rewrite ontology_downloads_eq; do 2 right; left |].
    intros uf Huf Heq. rewrite ontology_downloads_eq, !elem_of_cons in Huf.
    destruct Huf as [->|[->|[->|Huf]]];
      [differ Hdist Heq | differ Hdist Heq | | by apply elem_of_nil in Huf].
    apply (Hserves _ (unparsed_ontology_data md // "uberon-full.json")).
    rewrite download_plan_eq. do 4 right; left.
Qed.

Lemma install_data_installs_files_witness :
  ∃ w', install_data net_echo sample_repr ["srv"; "pkg"] (mkWorld ∅ [])
          = (w', Normal tt) ∧
        ∀ url dest, (url, dest) ∈ download_plan ["srv"; "pkg"] →
                    fs w' !! dest = Some (File (list_byte_of_string url)).
Proof.
  apply (install_data_installs_files net_echo sample_repr ["srv"; "pkg"]
           (mkWorld ∅ []) list_byte_of_string).
  - intros d q c _ _. cbn. by rewrite lookup_empty.
  - vm_compute. repeat constructor.
  - intros url dest _ i. eexists. split; [reflexivity |]. by split.
Defined.

(** ** More edge cases of the synonym fetch *)

(** X18: the output file is opened only after the last request.  When
    the gene set and every detail page are served but the output cannot
    be opened, all requests have been made, the [OSError] is reported by
    the second [except] clause and everything fetched is dropped. *)
Theorem fetch_unwritable_output net cr output_csv w items genes k :
  served net w items genes [] →
  open_error (fs w) output_csv = Some k →
  fetch_chromatin_remodelers_and_synonyms net cr output_csv w =
    (mkWorld (fs w)
       (log w ++
        map EvGet (chromatin_remodelers_url :: map gene_url genes) ++
        [EvPrint (MsgOtherError (OSError k))]),
     Normal tt).
Proof.
  intros (r & entries & Hnet & Hst & Hjson & Hassoc & Hall & Hgenes) Hopen.
  rewrite app_nil_r in Hassoc. rewrite fetch_unfold.
  rewrite (collect_chromatin_data_ok net cr w r entries items genes);
    [| done | done | done | by left | done | done].
  cbn [fs]. rewrite Hopen. unfold emit. cbn [fs log].
  by rewrite <- app_assoc.
Qed.

Lemma fetch_unwritable_output_witness :
  fetch_chromatin_remodelers_and_synonyms sample_api sample_repr
    ["srv"; "nowhere"; "out.csv"] sample_world =
    (mkWorld (fs sample_world)
       (log sample_world ++
        map EvGet (chromatin_remodelers_url :: map gene_url sample_genes) ++
        [EvPrint (MsgOtherError (OSError FileNotFoundError))]),
     Normal tt).
Proof.
  apply (fetch_unwritable_output sample_api sample_repr
           ["srv"; "nowhere"; "out.csv"] sample_world
           (map association_json sample_genes) sample_genes
           FileNotFoundError sample_api_served).
  reflexivity.
Defined.

Section LoopBody.
Variable net : nat → string → http_outcome.
Variable cr : pyvalue → string.

Lemma fetch_gene_with_synonyms a g w r entries v :
  association_of a g →
  net (requests_before w) (gene_url g) = Answer r →
  is_error_status (status_code r) = false →
  json r = Some (PDict entries) →
  dict_lookup "synonyms" entries = Some v →
  fetch_gene net cr a w =
    match (if truthy v then str_join ", " v else ret "")
            (emit (EvGet (gene_url g)) w) with
    | (w', Normal joined) => (w', Normal (mkRow (PStr (gi_symbol g)) joined))
    | (w', Raised e) => (w', Raised e)
    end.
Proof.
  intros (aentries & gene & -> & Hgene & Hsym & Hhref) Hnet Hst Hjson Hsyn.
  unfold fetch_gene, bind. cbn [subscript]. rewrite Hgene.
  cbn [ret subscript]. rewrite Hsym. cbn [ret subscript]. rewrite Hhref.
  cbn [ret py_str]. rewrite requests_get_run. fold (gene_url g).
  rewrite Hnet, raise_for_status_run, Hst. unfold response_json.
  rewrite Hjson. cbn [ret dict_get]. by rewrite Hsyn.
Qed.

End LoopBody.

(** X19: a detail page whose [synonyms] is null, false, zero, an empty
    string, an empty list or an empty object is accepted: the loop body
    builds the row of the gene with an empty synonyms column. *)
Theorem fetch_gene_falsy_synonyms net cr a g w r entries v :
  association_of a g →
  net (requests_before w) (gene_url g) = Answer r →
  is_error_status (status_code r) = false →
  json r = Some (PDict entries) →
  dict_lookup "synonyms" entries = Some v →
  truthy v = false →
  fetch_gene net cr a w =
    (emit (EvGet (gene_url g)) w, Normal (mkRow (PStr (gi_symbol g)) "")).
Proof.
  intros Ha Hnet Hst Hjson Hsyn Hv.
  rewrite (fetch_gene_with_synonyms net cr a g w r entries v) by done.
  by rewrite Hv.
Qed.

Lemma fetch_gene_falsy_synonyms_witness :
  fetch_gene (net_always 200 "" (Some (PDict [("synonyms", PNone)])))
    sample_repr (association_json gene_CHD4) sample_world =
    (emit (EvGet (gene_url gene_CHD4)) sample_world,
     Normal (mkRow (PStr (gi_symbol gene_CHD4)) "")).
Proof.
  apply (fetch_gene_falsy_synonyms
           (net_always 200 "" (Some (PDict [("synonyms", PNone)])))
           sample_repr (association_json gene_CHD4) gene_CHD4 sample_world
           (mkResponse 200 [] (Some (PDict [("synonyms", PNone)])))
           [("synonyms", PNone)] PNone).
  - eexists _, _. repeat split; reflexivity.
  - reflexivity.
  - reflexivity.
  - reflexivity.
  - reflexivity.
  - reflexivity.
Defined.

(** X20: a detail page whose [synonyms] is a bare string rather than a
    list is taken apart: [", ".join] iterates over its characters, and
    the synonyms column holds them separated by a comma and a space. *)
Theorem fetch_gene_string_synonyms net cr a g w r entries s :
  association_of a g →
  net (requests_before w) (gene_url g) = Answer r →
  is_error_status (status_code r) = false →
  json r = Some (PDict entries) →
  dict_lookup "synonyms" entries = Some (PStr s) →
  s ≠ "" →
  fetch_gene net cr a w =
    (emit (EvGet (gene_url g)) w,
     Normal (mkRow (PStr (gi_symbol g)) (join_strings ", " (py_chars s)))).
Proof.
  intros Ha Hnet Hst Hjson Hsyn Hs.
  rewrite (fetch_gene_with_synonyms net cr a g w r entries (PStr s)) by done.
  cbn [truthy]. apply String.eqb_neq in Hs. rewrite Hs. cbn [negb].
  unfold str_join, bind. cbn [py_iter ret].
  by rewrite all_strings_map_PStr.
Qed.

Lemma fetch_gene_string_synonyms_witness :
  fetch_gene (net_always 200 "" (Some (PDict [("synonyms", PStr "BRG1")])))
    sample_repr (association_json gene_SMARCA4) sample_world =
    (emit (EvGet (gene_url gene_SMARCA4)) sample_world,
     Normal (mkRow (PStr (gi_symbol gene_SMARCA4))
               (join_strings ", " (py_chars "BRG1")))).
Proof.
  apply (fetch_gene_string_synonyms
           (net_always 200 "" (Some (PDict [("synonyms", PStr "BRG1")])))
           sample_repr (association_json gene_SMARCA4) gene_SMARCA4
           sample_world
           (mkResponse 200 [] (Some (PDict [("synonyms", PStr "BRG1")])))
           [("synonyms", PStr "BRG1")] "BRG1").
  - eexists _, _. repeat split; reflexivity.
  - reflexivity.
  - reflexivity.
  - reflexivity.
  - reflexivity.
  - discriminate.
Defined.

Example string_synonyms_joined :
  join_strings ", " (py_chars "BRG1") = "B, R, G, 1".
Proof. reflexivity. Qed.
